(** * DGL on SageMaker example notebooks: job-submission glue

    The repository is a set of seven Jupyter notebooks
    (sagemaker-python-sdk/dgl_gcn, dgl_gcmc, dgl_kge, dgl_gcn_tox21).
    Each one resolves a container image reference by string formatting,
    assembles a hyperparameter dictionary, constructs an estimator
    (and, in two notebooks, a hyperparameter tuner around it) and calls
    [fit].  Everything else happens in the SageMaker service.

    The development embeds the code cells of the notebooks as programs
    of a small state-and-exception monad over an abstract SDK client,
    together with the two pieces of pure computation they rely on:
    Python's [str.format] and the regular expressions of the metric
    definitions. *)

From Stdlib Require Import Ascii ZArith QArith Lia.
From stdpp Require Import base gmap sets list strings.

(** ** Python exceptions and results *)

(** An exception is identified by its class name and its message. *)
Record exn := PyExc { exc_class : string; exc_msg : string }.

Inductive pyres (A : Type) : Type :=
| Ok (a : A)
| Raise (e : exn).
Arguments Ok {A} a.
Arguments Raise {A} e.

Definition pyres_map {A B} (f : A -> B) (r : pyres A) : pyres B :=
  match r with
  | Ok a => Ok (f a)
  | Raise e => Raise e
  end.

(** ** [str.format]

    The fragment of the format mini-language the notebooks use:
    literal text, the escapes [{{] and [}}], automatically numbered
    fields [{}] and manually numbered fields [{N}], applied to
    positional string arguments.  Conversions, format specifications
    and named fields are outside the fragment. *)
Module PyFormat.

Definition ValueError (msg : string) : exn := PyExc "ValueError" msg.
Definition IndexError (msg : string) : exn := PyExc "IndexError" msg.
Definition NotSupported (msg : string) : exn := PyExc "NotImplementedError" msg.

(** How the fields seen so far were numbered. *)
Inductive numbering :=
| Unset
| Auto (next : nat)
| Manual.

(** Scanner position: in literal text, just after a [{], inside a
    numbered field, or just after a [}] in literal text. *)
Inductive scan :=
| Text
| Open
| Field (index : nat)
| Close.

Definition is_digit (c : ascii) : bool :=
  (48 <=? Ascii.nat_of_ascii c)%nat && (Ascii.nat_of_ascii c <=? 57)%nat.

Definition digit (c : ascii) : nat := Ascii.nat_of_ascii c - 48.

Definition lbrace : ascii := "{"%char.
Definition rbrace : ascii := "}"%char.

(** [args[i]], as the replacement text of a field. *)
Definition positional {A} (args : list string) (i : nat)
    (k : string -> pyres A) : pyres A :=
  match nth_error args i with
  | Some a => k a
  | None => Raise (IndexError "tuple index out of range")
  end.

Fixpoint render (st : scan) (mode : numbering) (tmpl : string)
    (args : list string) : pyres string :=
  match tmpl with
  | EmptyString =>
      match st with
      | Text => Ok EmptyString
      | Open => Raise (ValueError "Single '{' encountered in format string")
      | Field _ => Raise (ValueError "expected '}' before end of string")
      | Close => Raise (ValueError "Single '}' encountered in format string")
      end
  | String c t =>
      match st with
      | Text =>
          if Ascii.eqb c lbrace then render Open mode t args
          else if Ascii.eqb c rbrace then render Close mode t args
          else pyres_map (String c) (render Text mode t args)
      | Open =>
          if Ascii.eqb c lbrace then
            pyres_map (String lbrace) (render Text mode t args)
          else if Ascii.eqb c rbrace then
            match mode with
            | Manual =>
                Raise (ValueError "cannot switch from manual field specification to automatic field numbering")
            | Unset =>
                positional args 0 (fun a =>
                  pyres_map (String.append a) (render Text (Auto 1) t args))
            | Auto n =>
                positional args n (fun a =>
                  pyres_map (String.append a) (render Text (Auto (S n)) t args))
            end
          else if is_digit c then render (Field (digit c)) mode t args
          else Raise (NotSupported "replacement field outside the modelled fragment")
      | Field i =>
          if Ascii.eqb c rbrace then
            match mode with
            | Auto _ =>
                Raise (ValueError "cannot switch from automatic field numbering to manual field specification")
            | _ =>
                positional args i (fun a =>
                  pyres_map (String.append a) (render Text Manual t args))
            end
          else if is_digit c then render (Field (10 * i + digit c)) mode t args
          else Raise (NotSupported "replacement field outside the modelled fragment")
      | Close =>
          if Ascii.eqb c rbrace then
            pyres_map (String rbrace) (render Text mode t args)
          else Raise (ValueError "Single '}' encountered in format string")
      end
  end.

(** [tmpl.format( *args )] *)
Definition format (tmpl : string) (args : list string) : pyres string :=
  render Text Unset tmpl args.

End PyFormat.

(** ** Python values and dictionaries *)

(** The values the notebooks store in dictionaries.  Float literals are
    kept as the exact decimal they are written as: no arithmetic is
    ever performed on them. *)
#[warnings="-register-all"]
Inductive pyval :=
| PStr (s : string)
| PInt (z : Z)
| PFloat (q : Q)
| PBool (b : bool)
| ContinuousParameter (min_value max_value : Q)
| IntegerParameter (min_value max_value : Z)
| CategoricalParameter (values : list pyval).

Abbreviation pydict := (gmap string pyval).

(** Dictionaries are mutable objects: variables, estimators and tuners
    hold references into a heap of dictionaries. *)
Definition loc := nat.
Definition heap_t := list pydict.

(** The dictionary a reference points to.  References are only ever
    obtained by allocation, so the lookup always succeeds; the empty
    dictionary stands in for the case that cannot arise. *)
Definition deref (h : heap_t) (l : loc) : pydict := default ∅ (h !! l).

(** A dictionary display [{k1: v1, k2: v2, ...}]: the items are stored
    from left to right, a later item replacing an earlier one with the
    same key.  [{}] is [display []]. *)
Definition display (items : list (string * pyval)) : pydict :=
  foldl (fun d kv => <[kv.1 := kv.2]> d) ∅ items.

(** ** Configuration objects *)

Inductive estimator_class := PyTorch_cls | MXNet_cls | Estimator_cls.

(** Job configuration: what an estimator constructor was given.  The
    hyperparameter dictionary is held by reference. *)
Record JobConfiguration := {
  estimator_cls : estimator_class;
  entry_point : option string;
  source_dir : option string;
  role : string;
  train_instance_count : Z;
  train_instance_type : string;
  image_name : string;
  hyperparameters : loc
}.

Record metric_definition := { Name : string; Regex : string }.

Inductive direction := Maximize | Minimize.

(** Tuning configuration: a job configuration, the ranges to explore
    (held by reference), the objective and the two job limits. *)
Record TuningConfiguration := {
  estimator : JobConfiguration;
  objective_metric_name : string;
  hyperparameter_ranges : loc;
  metric_definitions : list metric_definition;
  objective_type : direction;
  max_jobs : Z;
  max_parallel_jobs : Z
}.

(** Modelled from the spec: the constructor of the tuning configuration
    belongs to the SageMaker SDK, which is not part of the notebooks.
    The spec gives the direction as maximize/minimize with default
    maximize, and the notebooks document the same default next to the
    constructor call; an omitted [objective_type] is therefore
    [Maximize]. *)
Definition HyperparameterTuner (est : JobConfiguration)
    (objective_metric_name : string) (hyperparameter_ranges : loc)
    (metric_definitions : list metric_definition)
    (objective_type : option direction)
    (max_jobs max_parallel_jobs : Z) : TuningConfiguration :=
  {| estimator := est;
     objective_metric_name := objective_metric_name;
     hyperparameter_ranges := hyperparameter_ranges;
     metric_definitions := metric_definitions;
     objective_type := default Maximize objective_type;
     max_jobs := max_jobs;
     max_parallel_jobs := max_parallel_jobs |}.

(** ** The external world *)

(** What [estimator.fit] hands to the service: the estimator, the
    contents of its hyperparameter dictionary at the time of the call,
    the data channels and the [wait] and [logs] arguments as written. *)
Record training_submission := {
  job : JobConfiguration;
  job_hyperparameters : pydict;
  job_inputs : option pydict;
  job_wait : option bool;
  job_logs : option bool
}.

(** What [tuner.fit] hands to the service. *)
Record tuning_submission := {
  tuning : TuningConfiguration;
  tuning_hyperparameters : pydict;
  tuning_ranges : pydict;
  tuning_inputs : option pydict
}.

(** A [%%sh] cell that builds a docker image and pushes it to the
    private registry of the account. *)
Record image_build := {
  base_image : option string;
  build_name : string;
  dockerfile : string
}.

(** External calls that return nothing. *)
Inductive command :=
| Session
| bang (cmdline : string)
| sh (script : image_build)
| estimator_fit (s : training_submission)
| tuner_fit (s : tuning_submission).

(** External calls that return a string. *)
Inductive query :=
| default_bucket
| get_execution_role
| get_caller_identity_Account
| region_name
| upload_data (path bucket key_prefix : string)
| latest_tuning_job_name
| describe_hyper_parameter_tuning_job_Status (HyperParameterTuningJobName : string).

(** The SDK client and the service behind it: any behaviour at all,
    any call may raise.  What the SDK does with a submission once [fit]
    has been called is part of [perform]. *)
Record Client (W : Type) := {
  perform : command -> W -> pyres unit * W;
  answer : query -> W -> pyres string * W
}.
Arguments perform {W}.
Arguments answer {W}.

(** What a run of a notebook did, in order. *)
Inductive event :=
| Performed (c : command) (r : pyres unit)
| Answered (q : query) (r : pyres string)
| Printed (text : string)
| EstimatorCreated (e : JobConfiguration) (given_hyperparameters : pydict)
| TunerCreated (t : TuningConfiguration) (given_ranges : pydict)
    (given_objective_type : option direction).

(** ** The notebook monad *)

Section Monad.
Context {W : Type}.

Record state := {
  world : W;
  heap : heap_t;
  journal : list event
}.

Definition M (A : Type) : Type := state -> pyres A * state.

#[global] Instance M_ret : MRet M := fun A a st => (Ok a, st).

(** An exception ends the run; there is no handler. *)
#[global] Instance M_bind : MBind M := fun A B f m st =>
  match m st with
  | (Ok a, st') => f a st'
  | (Raise e, st') => (Raise e, st')
  end.

Definition record (ev : event) : M unit := fun st =>
  (Ok tt, {| world := world st; heap := heap st;
             journal := journal st ++ [ev] |}).

Definition lift {A} (r : pyres A) : M A := fun st => (r, st).

(** Evaluating a dictionary display allocates a fresh dictionary. *)
Definition new_dict (d : pydict) : M loc := fun st =>
  (Ok (length (heap st)),
   {| world := world st; heap := heap st ++ [d]; journal := journal st |}).

(** [d[k] = v] *)
Definition setitem (d : loc) (k : string) (v : pyval) : M unit := fun st =>
  (Ok tt,
   {| world := world st;
      heap := alter (insert k v) d (heap st);
      journal := journal st |}).

Definition contents (d : loc) : M pydict := fun st =>
  (Ok (deref (heap st) d), st).

Variable sdk : Client W.

Definition do_perform (c : command) : M unit := fun st =>
  let '(r, w) := perform sdk c (world st) in
  (r, {| world := w; heap := heap st;
         journal := journal st ++ [Performed c r] |}).

Definition do_answer (q : query) : M string := fun st =>
  let '(r, w) := answer sdk q (world st) in
  (r, {| world := w; heap := heap st;
         journal := journal st ++ [Answered q r] |}).

(** [!cmd]: IPython runs the command and goes on whatever its exit
    status. *)
Definition do_bang (cmdline : string) : M unit := fun st =>
  let '(r, w) := perform sdk (bang cmdline) (world st) in
  (Ok tt, {| world := w; heap := heap st;
             journal := journal st ++ [Performed (bang cmdline) r] |}).

Definition print (text : string) : M unit := record (Printed text).

(** Estimator constructors keep their arguments and call nothing. *)
Definition construct (e : JobConfiguration) : M JobConfiguration :=
  hp ← contents (hyperparameters e);
  record (EstimatorCreated e hp);;
  mret e.

(** The tuner constructor, with the arguments the notebooks give. *)
Definition construct_tuner (est : JobConfiguration)
    (objective_metric_name : string) (hyperparameter_ranges : loc)
    (metric_definitions : list metric_definition)
    (objective_type : option direction)
    (max_jobs max_parallel_jobs : Z) : M TuningConfiguration :=
  let t := HyperparameterTuner est objective_metric_name
             hyperparameter_ranges metric_definitions objective_type
             max_jobs max_parallel_jobs in
  rg ← contents hyperparameter_ranges;
  record (TunerCreated t rg objective_type);;
  mret t.

(** [estimator.fit(inputs, wait=..., logs=...)] *)
Definition fit (e : JobConfiguration) (inputs : option loc)
    (wait logs : option bool) : M unit :=
  hp ← contents (hyperparameters e);
  ch ← match inputs with
       | Some l => d ← contents l; mret (Some d)
       | None => mret None
       end;
  do_perform (estimator_fit
    {| job := e; job_hyperparameters := hp; job_inputs := ch;
       job_wait := wait; job_logs := logs |}).

(** [tuner.fit(inputs=...)] *)
Definition fit_tuner (t : TuningConfiguration) (inputs : option loc) : M unit :=
  hp ← contents (hyperparameters (estimator t));
  rg ← contents (hyperparameter_ranges t);
  ch ← match inputs with
       | Some l => d ← contents l; mret (Some d)
       | None => mret None
       end;
  do_perform (tuner_fit
    {| tuning := t; tuning_hyperparameters := hp; tuning_ranges := rg;
       tuning_inputs := ch |}).

End Monad.
Arguments state : clear implicits.
Arguments M : clear implicits.

(** ** The notebooks

    One program per notebook, cell by cell, statement by statement.
    Imports and the [sagemaker_session=sess] argument (the one session
    of the run) leave no trace in the model. *)

Inductive notebook :=
| pytorch_gcn
| mxnet_gcn
| kge_mxnet
| mxnet_gcmc
| pytorch_gcn_hypertune
| pytorch_gcn_tox21
| pytorch_gcn_tox21_hypertune.

(** The [metric_definitions] of the two tuning notebooks. *)
Definition gcn_metric_definitions : list metric_definition :=
  [ {| Name := "Validation-accuracy";
       Regex := "Test Accuracy ([0-9\.]+)%" |} ].

Definition tox21_metric_definitions : list metric_definition :=
  [ {| Name := "Validation_roc_auc";
       Regex := "Best validation score ([0-9\.]+)" |} ].

Definition image_template : string := "{}.dkr.ecr.{}.amazonaws.com/{}:{}".
Definition image_template_latest : string := "{}.dkr.ecr.{}.amazonaws.com/{}:latest".

Section Notebooks.
Context {W : Type} (sdk : Client W).

(** The setup cell all notebooks start from. *)
Definition setup : M W (string * string * string) :=
  do_perform sdk Session;;
  bucket ← do_answer sdk default_bucket;
  let custom_code_upload_location := "customcode" in
  role ← do_answer sdk get_execution_role;
  mret (bucket, custom_code_upload_location, role).

Definition conda_install : M W unit :=
  do_bang sdk "conda install -y boto3";;
  do_bang sdk "conda install -c anaconda -y botocore".

(** The GCN notebook for the PyTorch backend, which trains
    [pytorch_gcn.py] (unnamed/part_000). *)
Definition run_pytorch_gcn : M W unit :=
  '(bucket, custom_code_upload_location, role) ← setup;
  do_bang sdk "cat pytorch_gcn.py";;
  let CODE_PATH := "pytorch_gcn.py" in
  account ← do_answer sdk get_caller_identity_Account;
  region ← do_answer sdk region_name;
  let docker_name := "beta-pytorch-training" in
  let docker_tag := "1.3.0-py3-gpu-build" in
  image ← lift (PyFormat.format image_template
                  [account; region; docker_name; docker_tag]);
  print image;;
  params ← new_dict (display []);
  setitem params "dataset" (PStr "cora");;
  estimator ← construct
    {| estimator_cls := PyTorch_cls;
       entry_point := Some CODE_PATH;
       source_dir := None;
       role := role;
       train_instance_count := 1;
       train_instance_type := "ml.p3.2xlarge";
       image_name := image;
       hyperparameters := params |};
  fit sdk estimator None None None.

(** dgl_gcn/mxnet_gcn.ipynb *)
Definition run_mxnet_gcn : M W unit :=
  conda_install;;
  '(bucket, custom_code_upload_location, role) ← setup;
  do_bang sdk "cat mxnet_gcn.py";;
  let CODE_PATH := "mxnet_gcn.py" in
  account ← do_answer sdk get_caller_identity_Account;
  region ← do_answer sdk region_name;
  let docker_name := "beta-mxnet-training" in
  let docker_tag := "1.6.0-py3-gpu-build" in
  image ← lift (PyFormat.format image_template
                  [account; region; docker_name; docker_tag]);
  print image;;
  params ← new_dict (display []);
  setitem params "dataset" (PStr "cora");;
  estimator ← construct
    {| estimator_cls := MXNet_cls;
       entry_point := Some CODE_PATH;
       source_dir := None;
       role := role;
       train_instance_count := 1;
       train_instance_type := "ml.p3.2xlarge";
       image_name := image;
       hyperparameters := params |};
  fit sdk estimator None None None.

(** dgl_kge/kge_mxnet.ipynb *)
Definition run_kge_mxnet : M W unit :=
  '(bucket, custom_code_upload_location, role) ← setup;
  do_perform sdk (sh {| base_image := None;
                        build_name := "sagemaker-dgl-kge-mxnet";
                        dockerfile := "KGE_mxnet.Dockerfile" |});;
  let ENTRY_POINT := "train.py" in
  let CODE_PATH := "./" in
  account ← do_answer sdk get_caller_identity_Account;
  region ← do_answer sdk region_name;
  let docker_name := "sagemaker-dgl-kge-mxnet" in
  image ← lift (PyFormat.format image_template_latest
                  [account; region; docker_name]);
  params ← new_dict (display []);
  setitem params "dataset" (PStr "FB15k");;
  setitem params "model" (PStr "DistMult");;
  setitem params "batch_size" (PInt 1024);;
  setitem params "neg_sample_size" (PInt 256);;
  setitem params "hidden_dim" (PInt 2000);;
  setitem params "gamma" (PFloat 500);;
  setitem params "lr" (PFloat (1 # 10));;
  setitem params "max_step" (PInt 100000);;
  setitem params "batch_size_eval" (PInt 16);;
  setitem params "valid" (PBool true);;
  setitem params "test" (PBool true);;
  setitem params "neg_adversarial_sampling" (PBool true);;
  estimator ← construct
    {| estimator_cls := MXNet_cls;
       entry_point := Some ENTRY_POINT;
       source_dir := Some CODE_PATH;
       role := role;
       train_instance_count := 1;
       train_instance_type := "ml.p3.2xlarge";
       image_name := image;
       hyperparameters := params |};
  fit sdk estimator None (Some true) (Some true).

(** dgl_gcmc/mxnet_gcmc.ipynb *)
Definition run_mxnet_gcmc : M W unit :=
  conda_install;;
  do_perform sdk Session;;
  bucket ← do_answer sdk default_bucket;
  let custom_code_upload_location := "customcode" in
  model_artifacts_location ← lift (PyFormat.format "s3://{}/artifacts" [bucket]);
  role ← do_answer sdk get_execution_role;
  do_bang sdk "cat train.py";;
  do_perform sdk (sh {| base_image := None;
                        build_name := "sagemaker-dgl-gcmc";
                        dockerfile := "GCMC.Dockerfile" |});;
  let docker_name := "sagemaker-dgl-gcmc" in
  let CODE_PATH := "../dgl_gcmc" in
  let CODE_ENTRY := "train.py" in
  account ← do_answer sdk get_caller_identity_Account;
  region ← do_answer sdk region_name;
  image ← lift (PyFormat.format image_template_latest
                  [account; region; docker_name]);
  print image;;
  params ← new_dict (display []);
  setitem params "data_name" (PStr "ml-1m");;
  setitem params "save_dir" (PStr "/opt/ml/model/");;
  estimator ← construct
    {| estimator_cls := MXNet_cls;
       entry_point := Some CODE_ENTRY;
       source_dir := Some CODE_PATH;
       role := role;
       train_instance_count := 1;
       train_instance_type := "ml.p3.2xlarge";
       image_name := image;
       hyperparameters := params |};
  fit sdk estimator None None None.

(** The status check that closes both tuning notebooks. *)
Definition check_status : M W unit :=
  job_name ← do_answer sdk latest_tuning_job_name;
  do_answer sdk (describe_hyper_parameter_tuning_job_Status job_name);;
  mret tt.

(** dgl_gcn/pytorch_gcn_hypertune.ipynb *)
Definition run_pytorch_gcn_hypertune : M W unit :=
  '(bucket, custom_code_upload_location, role) ← setup;
  do_bang sdk "cat pytorch_gcn.py";;
  let CODE_PATH := "pytorch_gcn.py" in
  code_location ← do_answer sdk
    (upload_data "./" bucket custom_code_upload_location);
  account ← do_answer sdk get_caller_identity_Account;
  region ← do_answer sdk region_name;
  let docker_name := "beta-pytorch-training" in
  let docker_tag := "1.3.0-py3-gpu-build" in
  image ← lift (PyFormat.format image_template
                  [account; region; docker_name; docker_tag]);
  print image;;
  params ← new_dict (display []);
  setitem params "dataset" (PStr "cora");;
  estimator ← construct
    {| estimator_cls := PyTorch_cls;
       entry_point := Some CODE_PATH;
       source_dir := None;
       role := role;
       train_instance_count := 1;
       train_instance_type := "ml.p3.2xlarge";
       image_name := image;
       hyperparameters := params |};
  hyperparameter_ranges ← new_dict
    (display [("lr", ContinuousParameter (1 # 1000) (1 # 100));
              ("n-epochs", IntegerParameter 100 200)]);
  let objective_metric_name := "Validation-accuracy" in
  let metric_definitions := gcn_metric_definitions in
  tuner ← construct_tuner estimator objective_metric_name
             hyperparameter_ranges metric_definitions None 6 2;
  data ← new_dict (display []);
  setitem data "training-code" (PStr code_location);;
  fit_tuner sdk tuner (Some data);;
  check_status.

(** dgl_gcn_tox21/pytorch-gcn-tox21.ipynb *)
Definition run_pytorch_gcn_tox21 : M W unit :=
  '(bucket, custom_code_upload_location, role) ← setup;
  do_bang sdk "cat main.py";;
  do_perform sdk
    (sh {| base_image := Some "dgllib/dgl-sagemaker-gpu:dgl_0.4_pytorch_1.2.0_rdkit";
           build_name := "sagemaker-dgl-pytorch-gcn-tox21";
           dockerfile := "gcn_tox21.Dockerfile" |});;
  let docker_name := "sagemaker-dgl-pytorch-gcn-tox21" in
  let CODE_PATH := "main.py" in
  code_location ← do_answer sdk
    (upload_data CODE_PATH bucket custom_code_upload_location);
  account ← do_answer sdk get_caller_identity_Account;
  region ← do_answer sdk region_name;
  image ← lift (PyFormat.format image_template_latest
                  [account; region; docker_name]);
  print image;;
  hp ← new_dict (display [("entrypoint", PStr CODE_PATH)]);
  estimator ← construct
    {| estimator_cls := Estimator_cls;
       entry_point := None;
       source_dir := None;
       role := role;
       train_instance_count := 1;
       train_instance_type := "ml.p3.2xlarge";
       image_name := image;
       hyperparameters := hp |};
  inputs ← new_dict (display [("training-code", PStr code_location)]);
  fit sdk estimator (Some inputs) None None.

(** dgl_gcn_tox21/pytorch-gcn-tox21-hypertune.ipynb *)
Definition run_pytorch_gcn_tox21_hypertune : M W unit :=
  '(bucket, custom_code_upload_location, role) ← setup;
  do_bang sdk "cat main.py";;
  let docker_name := "sagemaker-dgl-pytorch-gcn-tox21" in
  let CODE_PATH := "main.py" in
  code_location ← do_answer sdk
    (upload_data CODE_PATH bucket custom_code_upload_location);
  account ← do_answer sdk get_caller_identity_Account;
  region ← do_answer sdk region_name;
  image ← lift (PyFormat.format image_template_latest
                  [account; region; docker_name]);
  hp ← new_dict (display [("entrypoint", PStr CODE_PATH)]);
  estimator ← construct
    {| estimator_cls := Estimator_cls;
       entry_point := None;
       source_dir := None;
       role := role;
       train_instance_count := 1;
       train_instance_type := "ml.p3.2xlarge";
       image_name := image;
       hyperparameters := hp |};
  hyper_ranges ← new_dict
    (display [("lr", ContinuousParameter (1 # 10000) (1 # 100));
              ("patience", IntegerParameter 5 30);
              ("n_hidden", CategoricalParameter [PInt 32; PInt 64; PInt 128])]);
  let objective_name := "Validation_roc_auc" in
  let metric_definitions := tox21_metric_definitions in
  tuner ← construct_tuner estimator objective_name hyper_ranges
             metric_definitions None 6 2;
  inputs ← new_dict (display [("training-code", PStr code_location)]);
  fit_tuner sdk tuner (Some inputs);;
  check_status.

Definition program (nb : notebook) : M W unit :=
  match nb with
  | pytorch_gcn => run_pytorch_gcn
  | mxnet_gcn => run_mxnet_gcn
  | kge_mxnet => run_kge_mxnet
  | mxnet_gcmc => run_mxnet_gcmc
  | pytorch_gcn_hypertune => run_pytorch_gcn_hypertune
  | pytorch_gcn_tox21 => run_pytorch_gcn_tox21
  | pytorch_gcn_tox21_hypertune => run_pytorch_gcn_tox21_hypertune
  end.

(** Run all cells of a notebook from a fresh kernel. *)
Definition run (nb : notebook) (w : W) : pyres unit * state W :=
  program nb {| world := w; heap := []; journal := [] |}.

End Notebooks.

(** ** Metric-extraction patterns

    The [Regex] entries of the metric definitions are regular
    expressions that the service applies to the log lines of a training
    job; the text captured by the first group is the metric value.  The
    module gives the fragment of the regular-expression language the
    patterns are written in a backtracking semantics: leftmost match,
    greedy repetition, numbered capture groups.

    In the notebook files the pattern of the GCN tuning notebook reads
    ['Test Accuracy ([0-9\\\\.]+)%'] inside a JSON string, that is
    ['Test Accuracy ([0-9\\.]+)%'] as Python source, which denotes the
    characters [Test Accuracy ([0-9\.]+)%]. *)
Module Regex.

Inductive class_item :=
| One (c : ascii)
| Range (lo hi : ascii).

Inductive regex :=
| Empty
| Char (c : ascii)
| AnyChar
| Class (negated : bool) (items : list class_item)
| Seq (r1 r2 : regex)
| Alt (r1 r2 : regex)
| Star (r : regex)
| Plus (r : regex)
| Opt (r : regex)
| Group (index : nat) (r : regex).

(** *** Parsing *)

Definition is_alnum (c : ascii) : bool :=
  let n := Ascii.nat_of_ascii c in
  ((48 <=? n) && (n <=? 57) || (65 <=? n) && (n <=? 90)
   || (97 <=? n) && (n <=? 122))%nat.

Definition is_quantifier (c : ascii) : bool :=
  Ascii.eqb c "*" || Ascii.eqb c "+" || Ascii.eqb c "?".

Definition backslash : ascii := Ascii.ascii_of_nat 92.

(** An escaped punctuation character stands for itself; [\d] is a
    digit.  Other escapes are outside the fragment. *)
Definition escaped_item (c : ascii) : option class_item :=
  if Ascii.eqb c "d" then Some (Range "0" "9")
  else if is_alnum c then None
  else Some (One c).

(** The items of a character class, up to the closing bracket. *)
Fixpoint parse_items (s : string) : option (list class_item * string) :=
  match s with
  | EmptyString => None
  | String c t =>
      if Ascii.eqb c "]" then Some ([], t)
      else if Ascii.eqb c backslash then
        match t with
        | String e t' =>
            match escaped_item e, parse_items t' with
            | Some i, Some (items, rest) => Some (i :: items, rest)
            | _, _ => None
            end
        | EmptyString => None
        end
      else
        match t with
        | String d (String hi t') =>
            if Ascii.eqb d "-" && negb (Ascii.eqb hi "]") then
              match parse_items t' with
              | Some (items, rest) => Some (Range c hi :: items, rest)
              | None => None
              end
            else
              match parse_items t with
              | Some (items, rest) => Some (One c :: items, rest)
              | None => None
              end
        | _ =>
            match parse_items t with
            | Some (items, rest) => Some (One c :: items, rest)
            | None => None
            end
        end
  end.

Definition parse_class (s : string) : option (regex * string) :=
  match s with
  | String c t =>
      if Ascii.eqb c "^" then
        match parse_items t with
        | Some (items, rest) => Some (Class true items, rest)
        | None => None
        end
      else
        match parse_items s with
        | Some (items, rest) => Some (Class false items, rest)
        | None => None
        end
  | EmptyString => None
  end.

(** At most one greedy quantifier after an atom. *)
Definition parse_quantifier (a : regex) (s : string) : option (regex * string) :=
  match s with
  | String q t =>
      if is_quantifier q then
        match t with
        | String q' _ =>
            if is_quantifier q' then None
            else Some ((if Ascii.eqb q "*" then Star a
                        else if Ascii.eqb q "+" then Plus a else Opt a), t)
        | EmptyString =>
            Some ((if Ascii.eqb q "*" then Star a
                   else if Ascii.eqb q "+" then Plus a else Opt a), t)
        end
      else Some (a, s)
  | EmptyString => Some (a, s)
  end.

(** Recursive descent; [g] is the number of groups opened so far.
    The fuel bounds the nesting and the length of the pattern. *)
Fixpoint parse_alt (fuel : nat) (g : nat) (s : string)
    : option (regex * string * nat) :=
  match fuel with
  | O => None
  | S fuel =>
      match parse_seq fuel g s with
      | Some (r1, String c t, g1) =>
          if Ascii.eqb c "|" then
            match parse_alt fuel g1 t with
            | Some (r2, rest, g2) => Some (Alt r1 r2, rest, g2)
            | None => None
            end
          else Some (r1, String c t, g1)
      | other => other
      end
  end
with parse_seq (fuel : nat) (g : nat) (s : string)
    : option (regex * string * nat) :=
  match fuel with
  | O => None
  | S fuel =>
      match s with
      | EmptyString => Some (Empty, s, g)
      | String c _ =>
          if Ascii.eqb c ")" || Ascii.eqb c "|" then Some (Empty, s, g)
          else
            match parse_atom fuel g s with
            | Some (a, rest, g1) =>
                match parse_quantifier a rest with
                | Some (a', rest') =>
                    match parse_seq fuel g1 rest' with
                    | Some (r, rest'', g2) => Some (Seq a' r, rest'', g2)
                    | None => None
                    end
                | None => None
                end
            | None => None
            end
      end
  end
with parse_atom (fuel : nat) (g : nat) (s : string)
    : option (regex * string * nat) :=
  match fuel with
  | O => None
  | S fuel =>
      match s with
      | EmptyString => None
      | String c t =>
          if Ascii.eqb c "(" then
            match parse_alt fuel (S g) t with
            | Some (r, String c' rest, g1) =>
                if Ascii.eqb c' ")" then Some (Group (S g) r, rest, g1)
                else None
            | _ => None
            end
          else if Ascii.eqb c "[" then
            match parse_class t with
            | Some (r, rest) => Some (r, rest, g)
            | None => None
            end
          else if Ascii.eqb c backslash then
            match t with
            | String e rest =>
                match escaped_item e with
                | Some (One x) => Some (Char x, rest, g)
                | Some i => Some (Class false [i], rest, g)
                | None => None
                end
            | EmptyString => None
            end
          else if Ascii.eqb c "." then Some (AnyChar, t, g)
          else if is_quantifier c || Ascii.eqb c "{" then None
          else Some (Char c, t, g)
      end
  end.

Definition compile (pattern : string) : option regex :=
  match parse_alt (3 * String.length pattern + 3) 0 pattern with
  | Some (r, EmptyString, _) => Some r
  | _ => None
  end.

(** *** Matching *)

Definition in_item (c : ascii) (i : class_item) : bool :=
  match i with
  | One x => Ascii.eqb c x
  | Range lo hi =>
      ((Ascii.nat_of_ascii lo <=? Ascii.nat_of_ascii c)
       && (Ascii.nat_of_ascii c <=? Ascii.nat_of_ascii hi))%nat
  end.

Definition in_class (c : ascii) (items : list class_item) : bool :=
  existsb (in_item c) items.

Definition newline : ascii := Ascii.ascii_of_nat 10.

(** Captured text by group number, most recent first. *)
Definition captures := list (nat * string).

Definition cont := string -> captures -> option captures.

(** The text between position [s] and the later position [s']. *)
Definition consumed (s s' : string) : string :=
  String.substring 0 (String.length s - String.length s') s.

(** Greedy repetition of [step]: as many rounds as possible, each of
    which must consume something, giving rounds back one at a time
    when the continuation fails. *)
Fixpoint iterate (step : string -> captures -> cont -> option captures)
    (k : cont) (fuel : nat) (s : string) (cs : captures) : option captures :=
  match fuel with
  | O => k s cs
  | S fuel =>
      match step s cs (fun s' cs' =>
              if (String.length s' <? String.length s)%nat
              then iterate step k fuel s' cs' else None) with
      | Some res => Some res
      | None => k s cs
      end
  end.

Fixpoint matches (r : regex) (s : string) (cs : captures) (k : cont)
    : option captures :=
  match r with
  | Empty => k s cs
  | Char c =>
      match s with
      | String x t => if Ascii.eqb x c then k t cs else None
      | EmptyString => None
      end
  | AnyChar =>
      match s with
      | String x t => if Ascii.eqb x newline then None else k t cs
      | EmptyString => None
      end
  | Class negated items =>
      match s with
      | String x t => if xorb negated (in_class x items) then k t cs else None
      | EmptyString => None
      end
  | Seq r1 r2 => matches r1 s cs (fun s' cs' => matches r2 s' cs' k)
  | Alt r1 r2 =>
      match matches r1 s cs k with
      | Some res => Some res
      | None => matches r2 s cs k
      end
  | Star r => iterate (matches r) k (String.length s) s cs
  | Plus r =>
      matches r s cs (fun s' cs' =>
        iterate (matches r) k (String.length s') s' cs')
  | Opt r =>
      match matches r s cs k with
      | Some res => Some res
      | None => k s cs
      end
  | Group i r =>
      matches r s cs (fun s' cs' => k s' ((i, consumed s s') :: cs'))
  end.

(** A match that starts exactly at the beginning of [s]. *)
Definition match_here (r : regex) (s : string) : option captures :=
  matches r s [] (fun _ cs => Some cs).

(** The leftmost match in [s]. *)
Fixpoint search (r : regex) (s : string) : option captures :=
  match match_here r s with
  | Some cs => Some cs
  | None =>
      match s with
      | EmptyString => None
      | String _ t => search r t
      end
  end.

Fixpoint group (i : nat) (cs : captures) : option string :=
  match cs with
  | [] => None
  | (j, text) :: cs' => if (i =? j)%nat then Some text else group i cs'
  end.

(** Apply a metric definition to a log line: the text of group 1 of
    the leftmost match, if the pattern is well formed and matches. *)
Definition extract (pattern line : string) : option string :=
  match compile pattern with
  | Some r =>
      match search r line with
      | Some cs => group 1 cs
      | None => None
      end
  | None => None
  end.

End Regex.

(** ** Observing a run *)

Definition is_submission (c : command) : bool :=
  match c with
  | estimator_fit _ | tuner_fit _ => true
  | _ => false
  end.

(** The submission calls of a run, whatever their outcome. *)
Definition submission_calls (j : list event) : list command :=
  omap (fun ev => match ev with
                  | Performed c _ => if is_submission c then Some c else None
                  | _ => None
                  end) j.

Definition training_submissions (j : list event) : list training_submission :=
  omap (fun ev => match ev with
                  | Performed (estimator_fit s) _ => Some s
                  | _ => None
                  end) j.

Definition tuning_submissions (j : list event) : list tuning_submission :=
  omap (fun ev => match ev with
                  | Performed (tuner_fit s) _ => Some s
                  | _ => None
                  end) j.

(** The estimators constructed, with the hyperparameters given. *)
Definition created (j : list event) : list (JobConfiguration * pydict) :=
  omap (fun ev => match ev with
                  | EstimatorCreated e hp => Some (e, hp)
                  | _ => None
                  end) j.

(** The tuners constructed, with the ranges and the direction argument
    given. *)
Definition tuners (j : list event)
    : list (TuningConfiguration * pydict * option direction) :=
  omap (fun ev => match ev with
                  | TunerCreated t rg o => Some (t, rg, o)
                  | _ => None
                  end) j.

Definition accounts (j : list event) : list string :=
  omap (fun ev => match ev with
                  | Answered get_caller_identity_Account (Ok a) => Some a
                  | _ => None
                  end) j.

Definition regions (j : list event) : list string :=
  omap (fun ev => match ev with
                  | Answered region_name (Ok r) => Some r
                  | _ => None
                  end) j.

(** The storage locations returned by the code-upload step. *)
Definition uploads (j : list event) : list string :=
  omap (fun ev => match ev with
                  | Answered (upload_data _ _ _) (Ok l) => Some l
                  | _ => None
                  end) j.

(** ** What the notebooks write down *)

Definition is_tuning (nb : notebook) : bool :=
  match nb with
  | pytorch_gcn_hypertune | pytorch_gcn_tox21_hypertune => true
  | _ => false
  end.

(** The notebooks whose [fit] call is given data channels. *)
Definition passes_channels (nb : notebook) : bool :=
  match nb with
  | pytorch_gcn_hypertune | pytorch_gcn_tox21 | pytorch_gcn_tox21_hypertune => true
  | _ => false
  end.

(** The two notebooks of dgl_gcn_tox21. *)
Definition is_tox21 (nb : notebook) : bool :=
  match nb with
  | pytorch_gcn_tox21 | pytorch_gcn_tox21_hypertune => true
  | _ => false
  end.

(** The [docker_name] variable. *)
Definition docker_name (nb : notebook) : string :=
  match nb with
  | pytorch_gcn | pytorch_gcn_hypertune => "beta-pytorch-training"
  | mxnet_gcn => "beta-mxnet-training"
  | kge_mxnet => "sagemaker-dgl-kge-mxnet"
  | mxnet_gcmc => "sagemaker-dgl-gcmc"
  | pytorch_gcn_tox21 | pytorch_gcn_tox21_hypertune => "sagemaker-dgl-pytorch-gcn-tox21"
  end.

(** The image tag: the [docker_tag] variable of the GCN notebooks, the
    tag written in the template elsewhere. *)
Definition docker_tag (nb : notebook) : string :=
  match nb with
  | pytorch_gcn | pytorch_gcn_hypertune => "1.3.0-py3-gpu-build"
  | mxnet_gcn => "1.6.0-py3-gpu-build"
  | _ => "latest"
  end.

(** The hyperparameters each notebook writes, in source order. *)
Definition written_hyperparameters (nb : notebook) : list (string * pyval) :=
  match nb with
  | pytorch_gcn | mxnet_gcn | pytorch_gcn_hypertune => [("dataset", PStr "cora")]
  | kge_mxnet =>
      [("dataset", PStr "FB15k"); ("model", PStr "DistMult");
       ("batch_size", PInt 1024); ("neg_sample_size", PInt 256);
       ("hidden_dim", PInt 2000); ("gamma", PFloat 500);
       ("lr", PFloat (1 # 10)); ("max_step", PInt 100000);
       ("batch_size_eval", PInt 16); ("valid", PBool true);
       ("test", PBool true); ("neg_adversarial_sampling", PBool true)]
  | mxnet_gcmc =>
      [("data_name", PStr "ml-1m"); ("save_dir", PStr "/opt/ml/model/")]
  | pytorch_gcn_tox21 | pytorch_gcn_tox21_hypertune => [("entrypoint", PStr "main.py")]
  end.

(** The concatenation an image reference stands for. *)
Definition image_reference (a r n t : string) : string :=
  a +:+ ".dkr.ecr." +:+ r +:+ ".amazonaws.com/" +:+ n +:+ ":" +:+ t.

(** ** Two concrete clients *)

(** An account in which every call succeeds.  The world counts the
    calls served. *)
Definition obliging : Client nat :=
  {| perform := fun _ n => (Ok tt, S n);
     answer := fun q n =>
       (Ok match q with
           | default_bucket => "sagemaker-us-east-2-123456789012"
           | get_execution_role => "arn:aws:iam::123456789012:role/SageMakerRole"
           | get_caller_identity_Account => "123456789012"
           | region_name => "us-east-2"
           | upload_data path bucket key_prefix =>
               "s3://" +:+ bucket +:+ "/" +:+ key_prefix +:+ "/" +:+ path
           | latest_tuning_job_name => "pytorch-training-191212-0101"
           | describe_hyper_parameter_tuning_job_Status _ => "InProgress"
           end, S n) |}.

Definition ResourceLimitExceeded : exn :=
  PyExc "ClientError" "ResourceLimitExceeded: account-level service limit for ml.p3.2xlarge".

(** The same account once its instance quota is used up: submissions
    are refused. *)
Definition exhausted : Client nat :=
  {| perform := fun c n =>
       if is_submission c then (Raise ResourceLimitExceeded, S n)
       else (Ok tt, S n);
     answer := answer obliging |}.



(** ** The compiled accuracy pattern

    The pattern of the GCN tuning notebook, taken apart the way the
    proofs read it: the literal text [Test Accuracy ], then a group of
    one or more digits and dots, then a percent sign. *)

(** The characters of [w] one after the other, then [r]. *)
Fixpoint literal (w : string) (r : Regex.regex) : Regex.regex :=
  match w with
  | EmptyString => r
  | String c w' => Regex.Seq (Regex.Char c) (literal w' r)
  end.

(** [s] without its prefix [w], if it starts with [w]. *)
Fixpoint strip_prefix (w s : string) : option string :=
  match w with
  | EmptyString => Some s
  | String c w' =>
      match s with
      | String x t => if Ascii.eqb x c then strip_prefix w' t else None
      | EmptyString => None
      end
  end.

(** [s] without its longest prefix of characters of the class. *)
Fixpoint skip_class (items : list Regex.class_item) (s : string) : string :=
  match s with
  | String x t => if Regex.in_class x items then skip_class items t else s
  | EmptyString => s
  end.

Definition digits_and_dots : list Regex.class_item :=
  [Regex.Range "0" "9"; Regex.One "."].

Definition number_then_percent : Regex.regex :=
  Regex.Seq
    (Regex.Group 1
       (Regex.Seq (Regex.Plus (Regex.Class false digits_and_dots)) Regex.Empty))
    (Regex.Seq (Regex.Char "%") Regex.Empty).

Definition test_accuracy_regex : Regex.regex :=
  literal "Test Accuracy " number_then_percent.

(** The continuation at the end of a pattern: the match is found. *)
Definition found : Regex.cont := fun _ cs => Some cs.

(** No character of [w] is a capital T. *)
Fixpoint has_no_T (w : string) : bool :=
  match w with
  | EmptyString => true
  | String c w' => negb (Ascii.eqb c "T") && has_no_T w'
  end.

(** ** Further observations of a run *)

Definition is_bang (c : command) : bool :=
  match c with
  | bang _ => true
  | _ => false
  end.

(** The execution roles the client reported. *)
Definition roles (j : list event) : list string :=
  omap (fun ev => match ev with
                  | Answered get_execution_role (Ok r) => Some r
                  | _ => None
                  end) j.

(** The default buckets the client reported. *)
Definition buckets (j : list event) : list string :=
  omap (fun ev => match ev with
                  | Answered default_bucket (Ok b) => Some b
                  | _ => None
                  end) j.

(** The arguments of the [upload_data] calls, whatever their outcome. *)
Definition upload_calls (j : list event) : list (string * string * string) :=
  omap (fun ev => match ev with
                  | Answered (upload_data p b k) _ => Some (p, b, k)
                  | _ => None
                  end) j.

(** The texts Python's [print] was called with.  What the [!] lines,
    the [%%sh] cells and the values of cells show is not part of it. *)
Definition print_calls (j : list event) : list string :=
  omap (fun ev => match ev with
                  | Printed text => Some text
                  | _ => None
                  end) j.

(** The job names the status of which was asked for. *)
Definition status_queries (j : list event) : list string :=
  omap (fun ev => match ev with
                  | Answered (describe_hyper_parameter_tuning_job_Status n) _ => Some n
                  | _ => None
                  end) j.

(** The names the tuner reported for its latest tuning job. *)
Definition job_names (j : list event) : list string :=
  omap (fun ev => match ev with
                  | Answered latest_tuning_job_name (Ok n) => Some n
                  | _ => None
                  end) j.

(** The tuning submissions the client accepted. *)
Definition accepted_tunings (j : list event) : list tuning_submission :=
  omap (fun ev => match ev with
                  | Performed (tuner_fit s) (Ok _) => Some s
                  | _ => None
                  end) j.

(** The first argument of [upload_data], in the notebooks that upload. *)
Definition upload_path (nb : notebook) : option string :=
  match nb with
  | pytorch_gcn_hypertune => Some "./"
  | pytorch_gcn_tox21 | pytorch_gcn_tox21_hypertune => Some "main.py"
  | _ => None
  end.


(** The estimator class each notebook instantiates. *)
Definition estimator_class_of (nb : notebook) : estimator_class :=
  match nb with
  | pytorch_gcn | pytorch_gcn_hypertune => PyTorch_cls
  | mxnet_gcn | kge_mxnet | mxnet_gcmc => MXNet_cls
  | pytorch_gcn_tox21 | pytorch_gcn_tox21_hypertune => Estimator_cls
  end.

(** A range a tuner can explore: a proper interval or a non-empty set
    of values. *)
Definition well_formed_range (v : pyval) : Prop :=
  match v with
  | ContinuousParameter lo hi => (lo < hi)%Q
  | IntegerParameter lo hi => (lo <= hi)%Z
  | CategoricalParameter values => values <> []
  | _ => False
  end.

(** The items of the range dictionaries, in source order. *)
Definition written_ranges (nb : notebook) : list (string * pyval) :=
  match nb with
  | pytorch_gcn_hypertune =>
      [("lr", ContinuousParameter (1 # 1000) (1 # 100));
       ("n-epochs", IntegerParameter 100 200)]
  | pytorch_gcn_tox21_hypertune =>
      [("lr", ContinuousParameter (1 # 10000) (1 # 100));
       ("patience", IntegerParameter 5 30);
       ("n_hidden", CategoricalParameter [PInt 32; PInt 64; PInt 128])]
  | _ => []
  end.

(** ** The metric patterns, continued

    What the lemmas on the two metric patterns are stated with, and the
    pattern of the tox21 tuning notebook taken apart like that of the
    GCN tuning notebook: the literal text [Best validation score ], then
    a group of one or more digits and dots. *)

(** Every character of [d] belongs to the class. *)
Fixpoint all_in_class (items : list Regex.class_item) (d : string) : bool :=
  match d with
  | EmptyString => true
  | String x t => Regex.in_class x items && all_in_class items t
  end.

(** [s] begins with a character of the class. *)
Definition starts_in_class (items : list Regex.class_item) (s : string) : bool :=
  match s with
  | String x _ => Regex.in_class x items
  | EmptyString => false
  end.

(** The longest prefix of [s] made of characters of the class. *)
Fixpoint take_class (items : list Regex.class_item) (s : string) : string :=
  match s with
  | String x t =>
      if Regex.in_class x items then String x (take_class items t)
      else EmptyString
  | EmptyString => EmptyString
  end.

(** The character [c] does not occur in [w]. *)
Fixpoint lacks (c : ascii) (w : string) : bool :=
  match w with
  | EmptyString => true
  | String x w' => negb (Ascii.eqb x c) && lacks c w'
  end.

Definition number_group : Regex.regex :=
  Regex.Seq
    (Regex.Group 1
       (Regex.Seq (Regex.Plus (Regex.Class false digits_and_dots)) Regex.Empty))
    Regex.Empty.

Definition validation_score_regex : Regex.regex :=
  literal "Best validation score " number_group.

(** ** The image-building cells

    Three notebooks have a [%%sh] cell that builds a docker image and
    pushes it to the registry of the account.  The cells are embedded
    as programs over a machine: the programs the shell can start, what
    the shell itself keeps under a name, the files that patterns
    match.  A shell has no exceptions: every command leaves an exit
    status and the script goes on.

    The model is partial: a run has no result ([None]) as soon as
    the shell would do something that the text of the cells does not
    determine.  That is the case for a command name that the shell
    runs itself (a built-in utility such as [exit], [eval] or [unset],
    or a function it was started with), for a program that does more
    than write and end (it reads the standard input, on which the
    shell receives the cell, signals the shell, or does not end), for
    a redirection to [/dev/null] that cannot be opened, and for a
    shell started with other options than the default ones.  The
    words of a command line that come from an unquoted expansion are
    split into fields and then undergo pathname expansion, which is a
    matter of the machine.  Invocations are tagged with the line of
    the notebook file they come from. *)
Module Shell.

Definition tab : ascii := Ascii.ascii_of_nat 9.
Definition linefeed : ascii := Ascii.ascii_of_nat 10.
Definition nul : ascii := Ascii.ascii_of_nat 0.

(** The separators of the default [IFS]. *)
Definition is_blank (c : ascii) : bool :=
  Ascii.eqb c " " || Ascii.eqb c tab || Ascii.eqb c linefeed.

(** Field splitting of an unquoted expansion; [cur] is the field being
    read. *)
Fixpoint fields_from (cur : string) (s : string) : list string :=
  match s with
  | EmptyString =>
      match cur with
      | EmptyString => []
      | _ => [cur]
      end
  | String c t =>
      if is_blank c then
        match cur with
        | EmptyString => fields_from EmptyString t
        | _ => cur :: fields_from EmptyString t
        end
      else fields_from (cur +:+ String c EmptyString) t
  end.

Definition fields (s : string) : list string := fields_from EmptyString s.

(** Without the newlines at the end. *)
Fixpoint chomp (s : string) : string :=
  match s with
  | EmptyString => EmptyString
  | String c t =>
      match chomp t with
      | EmptyString => if Ascii.eqb c linefeed then EmptyString
                       else String c EmptyString
      | t' => String c t'
      end
  end.

Fixpoint drop_nul (s : string) : string :=
  match s with
  | EmptyString => EmptyString
  | String c t => if Ascii.eqb c nul then drop_nul t else String c (drop_nul t)
  end.

(** The text a command substitution stands for: the output of the
    command without its null bytes and without the newlines at its
    end. *)
Definition capture (output : string) : string := chomp (drop_nul output).

(** The characters that make a field a pattern for pathname expansion;
    the backslash is counted among them. *)
Definition is_glob (c : ascii) : bool :=
  Ascii.eqb c "*" || Ascii.eqb c "?" || Ascii.eqb c "[" || Ascii.eqb c "\".

Fixpoint glob_free (s : string) : bool :=
  match s with
  | EmptyString => true
  | String c t => negb (is_glob c) && glob_free t
  end.

(** No separator of the default [IFS] occurs in the string. *)
Fixpoint blank_free (s : string) : bool :=
  match s with
  | EmptyString => true
  | String c t => negb (is_blank c) && blank_free t
  end.

(** The words an unquoted expansion with value [v] contributes to a
    command: its fields, each one that is a pattern replaced by what
    pathname expansion makes of it in the world [w]. *)
Definition expand {W} (pathnames : string -> W -> list string) (w : W)
    (v : string) : list string :=
  flat_map (fun f => if glob_free f then [f] else pathnames f w) (fields v).

(** Where the output of a command goes. *)
Inductive redirect :=
| Shown
| StdoutDiscarded
| AllDiscarded.

Definition to_null_device (r : redirect) : bool :=
  match r with
  | Shown => false
  | _ => true
  end.

(** What a program does once the shell has started it: it writes
    [out] to its standard output and ends with status [code], leaving
    the shell and the input of the shell alone; or anything else. *)
Inductive behaviour :=
| Exits (out : string) (code : nat)
| Interferes.

(** The machine the cell runs on.  [own] tells the command names the
    shell does not look up as programs, besides the special built-in
    utilities: its other built-in utilities, [echo] and [[] in their
    usual meaning apart, and the functions it was started with,
    whatever their names.  [pathnames] gives the words that pathname
    expansion makes of a pattern, [null_device] whether [/dev/null]
    can be opened for writing, [default_options] whether the shell
    runs with the options it has when none is given. *)
Record Machine (W : Type) := {
  runner : list string -> W -> behaviour * W;
  own : string -> bool;
  pathnames : string -> W -> list string;
  null_device : W -> bool;
  default_options : bool
}.

Arguments runner {W}.
Arguments own {W}.
Arguments pathnames {W}.
Arguments null_device {W}.
Arguments default_options {W}.

(** One run of a program. *)
Record invocation := {
  line : nat;
  from_output : bool;
  argv : list string;
  redirected : redirect;
  out : string;
  code : nat
}.

Inductive shell_event :=
| Ran (i : invocation)
| Echoed (at_line : nat) (arguments : list string).

(** The variables the shell is started with, set or unset. *)
Definition env := string -> option string.

(** The assignments the cell has made, the latest first. *)
Fixpoint assigned (x : string) (made : list (string * string)) : option string :=
  match made with
  | [] => None
  | (y, v) :: made' => if String.eqb x y then Some v else assigned x made'
  end.

(** The two built-in utilities the cells use. *)
Definition is_regular (name : string) : bool :=
  String.eqb name "echo" || String.eqb name "[".

(** The special built-in utilities, which every shell has. *)
Definition is_special (name : string) : bool :=
  existsb (String.eqb name)
    ["."; ":"; "break"; "continue"; "eval"; "exec"; "exit"; "export";
     "readonly"; "return"; "set"; "shift"; "times"; "trap"; "unset"].

Section Scripts.
Context {W : Type} (m : Machine W).

Record sh_state := {
  inherited : env;
  made : list (string * string);
  status : nat;
  outside : W;
  trace : list shell_event
}.

(** The value of a variable, if it is set. *)
Definition vars (st : sh_state) (x : string) : option string :=
  match assigned x (made st) with
  | Some v => Some v
  | None => inherited st x
  end.

(** [None]: the run has left the model. *)
Definition SM (A : Type) : Type := sh_state -> option (A * sh_state).

#[global] Instance SM_ret : MRet SM := fun A a st => Some (a, st).

#[global] Instance SM_bind : MBind SM := fun A B f k st =>
  match k st with
  | Some (a, st') => f a st'
  | None => None
  end.

(** [${x}] in double quotes: the value of [x], empty when [x] is
    unset. *)
Definition param (x : string) : SM string := fun st =>
  Some (default EmptyString (vars st x), st).

(** [${x:-d}]: [d] when [x] is unset or empty. *)
Definition param_or (x d : string) : SM string := fun st =>
  Some (match vars st x with
        | Some EmptyString | None => d
        | Some v => v
        end, st).

(** [${x}] or [$x] outside quotes. *)
Definition unquoted (x : string) : SM (list string) := fun st =>
  Some (expand (pathnames m) (outside st) (default EmptyString (vars st x)), st).

(** [x=v] *)
Definition assign (x v : string) : SM unit := fun st =>
  Some (tt, {| inherited := inherited st; made := (x, v) :: made st;
               status := 0; outside := outside st; trace := trace st |}).

(** The shell starts the program [name] with the arguments [args]. *)
Definition start (ln : nat) (substituted : bool) (r : redirect)
    (name : string) (args : list string) : SM string := fun st =>
  if is_special name || own m name || is_regular name then None
  else if to_null_device r && negb (null_device m (outside st)) then None
  else
    match runner m (name :: args) (outside st) with
    | (Exits o c, w) =>
        Some (o, {| inherited := inherited st; made := made st; status := c;
                    outside := w;
                    trace := trace st
                             ++ [Ran {| line := ln; from_output := substituted;
                                        argv := name :: args; redirected := r;
                                        out := o; code := c |}] |})
    | (Interferes, _) => None
    end.

(** A simple command. *)
Definition simple_command (ln : nat) (r : redirect) (name : string)
    (args : list string) : SM unit :=
  start ln false r name args;; mret tt.

(** Storing the output of a command leaves its exit status. *)
Definition store (x v : string) : SM unit := fun st =>
  Some (tt, {| inherited := inherited st; made := (x, v) :: made st;
               status := status st; outside := outside st; trace := trace st |}).

(** [x=$(name args)] *)
Definition assign_output (ln : nat) (x : string) (name : string)
    (args : list string) : SM unit :=
  o ← start ln false Shown name args;
  store x (capture o).

(** [$(name args)] as a command: the words its output expands to are
    run as a command, by the shell itself; with no word nothing is run
    and the status is that of the substitution. *)
Definition run_words (ln : nat) (text : string) : SM unit := fun st =>
  match expand (pathnames m) (outside st) text with
  | [] => Some (tt, st)
  | name :: args =>
      match start ln true Shown name args st with
      | Some (_, st') => Some (tt, st')
      | None => None
      end
  end.

Definition run_output (ln : nat) (name : string) (args : list string) : SM unit :=
  o ← start ln false Shown name args;
  run_words ln (capture o).

(** [echo words] *)
Definition echo (ln : nat) (words : list string) : SM unit := fun st =>
  if own m "echo" then None
  else Some (tt, {| inherited := inherited st; made := made st; status := 0;
                    outside := outside st;
                    trace := trace st ++ [Echoed ln words] |}).

(** [if [ $? -ne 0 ]; then body; fi] *)
Definition if_failed (body : SM unit) : SM unit := fun st =>
  if own m "[" then None
  else
    match status st with
    | O => Some (tt, {| inherited := inherited st; made := made st;
                        status := 0; outside := outside st;
                        trace := trace st |})
    | S _ => body st
    end.

(** The name the image is pushed under. *)
Definition fullname_of (account region docker_name : string) : string :=
  account +:+ ".dkr.ecr." +:+ region +:+ ".amazonaws.com/" +:+ docker_name
    +:+ ":latest".

(** The part all three cells have: the repository is looked up and
    created if the lookup fails. *)
Definition ensure_repository (describe_line create_line : nat) : SM unit :=
  docker_name ← param "docker_name";
  simple_command describe_line AllDiscarded "aws"
    ["ecr"; "describe-repositories"; "--repository-names"; docker_name];;
  if_failed
    (docker_name ← param "docker_name";
     simple_command create_line StdoutDiscarded "aws"
       ["ecr"; "create-repository"; "--repository-name"; docker_name]).

Definition set_fullname : SM unit :=
  account ← param "account";
  region ← param "region";
  docker_name ← param "docker_name";
  assign "fullname" (fullname_of account region docker_name).

Definition tag_and_push (tag_line push_line : nat) : SM unit :=
  docker_name ← unquoted "docker_name";
  fullname ← unquoted "fullname";
  simple_command tag_line Shown "docker" (["tag"] ++ docker_name ++ fullname);;
  fullname ← unquoted "fullname";
  simple_command push_line Shown "docker" (["push"] ++ fullname).

(** dgl_kge/kge_mxnet.ipynb, lines 62 to 83 *)
Definition kge_build : SM unit :=
  assign "docker_name" "sagemaker-dgl-kge-mxnet";;
  region ← unquoted "region";
  run_output 65 "aws"
    (["ecr"; "get-login"; "--no-include-email"; "--region"] ++ region
       ++ ["--registry-ids"; "763104351884"]);;
  docker_name ← unquoted "docker_name";
  simple_command 66 Shown "docker"
    (["build"; "-t"] ++ docker_name ++ ["-f"; "KGE_mxnet.Dockerfile"; "."]);;
  assign_output 68 "account" "aws"
    ["sts"; "get-caller-identity"; "--query"; "Account"; "--output"; "text"];;
  account ← unquoted "account";
  echo 69 account;;
  assign_output 70 "region" "aws" ["configure"; "get"; "region"];;
  region ← unquoted "region";
  run_output 72 "aws"
    (["ecr"; "get-login"; "--region"] ++ region ++ ["--no-include-email"]);;
  set_fullname;;
  ensure_repository 76 79;;
  tag_and_push 82 83.

(** dgl_gcmc/mxnet_gcmc.ipynb, lines 88 to 111 *)
Definition gcmc_build : SM unit :=
  assign_output 89 "account" "aws"
    ["sts"; "get-caller-identity"; "--query"; "Account"; "--output"; "text"];;
  account ← unquoted "account";
  echo 90 account;;
  assign_output 91 "region" "aws" ["configure"; "get"; "region"];;
  assign "docker_name" "sagemaker-dgl-gcmc";;
  region ← unquoted "region";
  run_output 95 "aws"
    (["ecr"; "get-login"; "--no-include-email"; "--region"] ++ region
       ++ ["--registry-ids"; "763104351884"]);;
  docker_name ← unquoted "docker_name";
  simple_command 96 Shown "docker"
    (["build"; "-t"] ++ docker_name ++ ["-f"; "GCMC.Dockerfile"; "."]);;
  region ← unquoted "region";
  run_output 99 "aws"
    (["ecr"; "get-login"; "--region"] ++ region ++ ["--no-include-email"]);;
  set_fullname;;
  ensure_repository 103 106;;
  tag_and_push 109 111.

(** dgl_gcn_tox21/pytorch-gcn-tox21.ipynb, lines 92 to 118 *)
Definition tox21_build : SM unit :=
  assign "default_docker_name"
    "dgllib/dgl-sagemaker-gpu:dgl_0.4_pytorch_1.2.0_rdkit";;
  default_docker_name ← unquoted "default_docker_name";
  simple_command 94 Shown "docker" (["pull"] ++ default_docker_name);;
  assign "docker_name" "sagemaker-dgl-pytorch-gcn-tox21";;
  docker_name ← unquoted "docker_name";
  simple_command 98 Shown "docker"
    (["build"; "-t"] ++ docker_name ++ ["-f"; "gcn_tox21.Dockerfile"; "."]);;
  assign_output 100 "account" "aws"
    ["sts"; "get-caller-identity"; "--query"; "Account"; "--output"; "text"];;
  account ← unquoted "account";
  echo 101 account;;
  assign_output 102 "region" "aws" ["configure"; "get"; "region"];;
  region ← param_or "region" "us-east-2";
  assign "region" region;;
  set_fullname;;
  ensure_repository 107 110;;
  region ← unquoted "region";
  run_output 114 "aws"
    (["ecr"; "get-login"; "--region"] ++ region ++ ["--no-include-email"]);;
  tag_and_push 116 118.

(** Run a cell in a shell that starts with the variables [vars0]. *)
Definition exec (script : SM unit) (vars0 : env) (w : W) : option sh_state :=
  if default_options m then
    match script {| inherited := vars0; made := []; status := 0; outside := w;
                    trace := [] |} with
    | Some (_, st) => Some st
    | None => None
    end
  else None.

End Scripts.

Fixpoint starts_with (pre words : list string) : bool :=
  match pre, words with
  | [], _ => true
  | p :: pre', x :: words' => String.eqb p x && starts_with pre' words'
  | _ :: _, [] => false
  end.

(** All the runs of programs whose command line begins with [pre],
    whether the cell names the program or the output of a command
    does. *)
Definition invoked (pre : list string) (tr : list shell_event) : list invocation :=
  omap (fun ev => match ev with
                  | Ran i => if starts_with pre (argv i) then Some i else None
                  | Echoed _ _ => None
                  end) tr.

(** The events of a run, none if the run left the model. *)
Definition events {W} (run : option (@sh_state W)) : list shell_event :=
  match run with
  | Some st => trace st
  | None => []
  end.

(** One word for the shell, whatever the files are: no blank and no
    pattern character. *)
Definition plain (v : string) : bool := blank_free v && glob_free v.

Definition get_login : list string := ["aws"; "ecr"; "get-login"].
Definition get_account : list string := ["aws"; "sts"; "get-caller-identity"].
Definition get_region : list string := ["aws"; "configure"; "get"; "region"].

(** What [aws ecr get-login] is for: it prints a [docker login] command
    line, without patterns, or nothing. *)
Definition login_command (output : string) : Prop :=
  match fields (capture output) with
  | [] => True
  | words => starts_with ["docker"; "login"] words = true
             /\ forallb glob_free words = true
  end.

(** The machines the properties of the cells are stated for: [aws] and
    [docker] are programs and [echo] and [[] the usual built-in
    utilities, the shell has its default options, [/dev/null] can be
    written to, every program writes and ends, and [aws ecr get-login]
    does what it is for. *)
Definition orderly {W} (m : Machine W) : Prop :=
  (forall name, In name ["aws"; "docker"; "echo"; "["] -> own m name = false)
  /\ default_options m = true
  /\ (forall w, null_device m w = true)
  /\ (forall argv w,
        exists out code,
          (runner m argv w).1 = Exits out code
          /\ (starts_with get_login argv = true -> login_command out)).

(** The three cells, the notebooks they belong to and their
    Dockerfiles. *)
Inductive cell := kge_cell | gcmc_cell | tox21_cell.

Definition script_of {W} (m : Machine W) (c : cell) : SM unit :=
  match c with
  | kge_cell => kge_build m
  | gcmc_cell => gcmc_build m
  | tox21_cell => tox21_build m
  end.

Definition notebook_of (c : cell) : notebook :=
  match c with
  | kge_cell => kge_mxnet
  | gcmc_cell => mxnet_gcmc
  | tox21_cell => pytorch_gcn_tox21
  end.

Definition dockerfile (c : cell) : string :=
  match c with
  | kge_cell => "KGE_mxnet.Dockerfile"
  | gcmc_cell => "GCMC.Dockerfile"
  | tox21_cell => "gcn_tox21.Dockerfile"
  end.

(** The region the cell works with, given what [aws configure get
    region] printed: only the tox21 cell has a fallback. *)
Definition region_used (c : cell) (configured : string) : string :=
  match c, configured with
  | tox21_cell, EmptyString => "us-east-2"
  | _, _ => configured
  end.

(** A machine on which the account 123456789012 is configured for
    us-east-2, the repository does not exist yet and the working
    directory holds nothing a pattern could match.  The world counts
    the programs run. *)
Definition workstation : Machine nat :=
  {| runner := fun words n =>
       (if starts_with get_login words
        then Exits ("docker login -u AWS -p secret https://registry"
                      +:+ String linefeed EmptyString) 0
        else if starts_with get_account words
        then Exits ("123456789012" +:+ String linefeed EmptyString) 0
        else if starts_with get_region words
        then Exits ("us-east-2" +:+ String linefeed EmptyString) 0
        else if starts_with ["aws"; "ecr"; "describe-repositories"] words
        then Exits EmptyString 255
        else Exits EmptyString 0,
        S n);
     own := fun name =>
       existsb (String.eqb name) ["cd"; "read"; "test"; "printf"; "pwd"; "kill"];
     pathnames := fun pattern _ => [pattern];
     null_device := fun _ => true;
     default_options := true |}.

End Shell.

(** * Properties *)

(** ** The models on concrete inputs *)

Example format_mixed_numbering :
  PyFormat.format "{{{}}}-{1}" ["a"; "b"]
  = Raise (PyFormat.ValueError
             "cannot switch from automatic field numbering to manual field specification").
Proof. reflexivity. Qed.

Example format_braces : PyFormat.format "{{{}}}-{}" ["a"; "b"] = Ok "{a}-b".
Proof. reflexivity. Qed.

Example format_manual : PyFormat.format "{1}/{0}/{1}" ["a"; "b"] = Ok "b/a/b".
Proof. reflexivity. Qed.

Example format_too_few_arguments :
  PyFormat.format image_template_latest ["123456789012"; "us-east-2"]
  = Raise (PyFormat.IndexError "tuple index out of range").
Proof. reflexivity. Qed.

Example format_single_brace :
  PyFormat.format "{}:{" ["a"]
  = Raise (PyFormat.ValueError "Single '{' encountered in format string").
Proof. reflexivity. Qed.

Example compile_classes :
  Regex.compile "a|(b[^x-z\d-]?)+"
  = Some (Regex.Alt
            (Regex.Seq (Regex.Char "a") Regex.Empty)
            (Regex.Seq
               (Regex.Plus
                  (Regex.Group 1
                     (Regex.Seq (Regex.Char "b")
                        (Regex.Seq
                           (Regex.Opt
                              (Regex.Class true
                                 [Regex.Range "x" "z"; Regex.Range "0" "9";
                                  Regex.One "-"]))
                           Regex.Empty))))
               Regex.Empty)).
Proof. vm_compute. reflexivity. Qed.

Example compile_rejects_unclosed_group : Regex.compile "(ab" = None.
Proof. vm_compute. reflexivity. Qed.

Example extract_backtracks : Regex.extract "x([0-9]+)5" "x1255" = Some "125".
Proof. vm_compute. reflexivity. Qed.

Example extract_validation_score :
  Regex.extract "Best validation score ([0-9\.]+)" "Best validation score 0.8125"
  = Some "0.8125".
Proof. vm_compute. reflexivity. Qed.

Example extract_needs_the_percent_sign :
  Regex.extract "Test Accuracy ([0-9\.]+)%" "Test Accuracy 91.2" = None.
Proof. vm_compute. reflexivity. Qed.

(** The search is leftmost: when the pattern matches twice on a line,
    the first match is the one reported. *)
Example extract_is_leftmost :
  Regex.extract "Test Accuracy ([0-9\.]+)%" "Test Accuracy 1% Test Accuracy 91.2%"
  = Some "1".
Proof. vm_compute. reflexivity. Qed.

Example display_replaces :
  display [("lr", PInt 1); ("lr", PInt 2)] = display [("lr", PInt 2)].
Proof. vm_compute. reflexivity. Qed.

(** ** String formatting *)

Lemma append_empty_r (s : string) : s +:+ EmptyString = s.
Proof.
  induction s as [|c s IH]; [done|].
  change (String c (s +:+ EmptyString) = String c s). by rewrite IH.
Qed.

Lemma format_image_template (a r n t : string) :
  PyFormat.format image_template [a; r; n; t] = Ok (image_reference a r n t).
Proof.
  unfold image_reference. rewrite <- (append_empty_r t) at 2. reflexivity.
Qed.

Lemma format_image_template_latest (a r n : string) :
  PyFormat.format image_template_latest [a; r; n]
  = Ok (image_reference a r n "latest").
Proof. reflexivity. Qed.

Lemma format_artifacts (bucket : string) :
  PyFormat.format "s3://{}/artifacts" [bucket]
  = Ok ("s3://" +:+ bucket +:+ "/artifacts").
Proof. reflexivity. Qed.

(** ** Dictionary displays *)

Lemma display_snoc (items : list (string * pyval)) (k : string) (v : pyval) :
  display (items ++ [(k, v)]) = <[k := v]> (display items).
Proof. unfold display. by rewrite foldl_app. Qed.

(** With distinct keys, a display holds exactly its items. *)
Lemma display_lookup (items : list (string * pyval)) (k : string) (v : pyval) :
  NoDup items.*1 ->
  display items !! k = Some v <-> In (k, v) items.
Proof.
  induction items as [|x items IH] using rev_ind; intros Hnd;
    [|destruct x as [k' v']].
  - split; [|intros []]. unfold display; simpl. by rewrite lookup_empty.
  - rewrite display_snoc. rewrite fmap_app in Hnd.
    apply NoDup_app in Hnd as (Hnd & Hfresh & _).
    rewrite in_app_iff. simpl. destruct (decide (k' = k)) as [->|Hne].
    + rewrite lookup_insert_eq. split.
      * intros [= ->]. right. by left.
      * intros [Hin|[Heq|[]]]; [|congruence].
        exfalso. apply (Hfresh k); [|by constructor].
        apply list_elem_of_fmap. exists (k, v). split; [done|].
        by apply list_elem_of_In.
    + rewrite lookup_insert_ne by done. rewrite (IH Hnd). split.
      * intros Hin. by left.
      * intros [Hin|[[= -> ->]|[]]]; [done|congruence].
Qed.

Lemma written_hyperparameters_distinct (nb : notebook) :
  NoDup (written_hyperparameters nb).*1.
Proof. destruct nb; compute_done. Qed.

(** ** The accuracy pattern *)

Lemma compile_test_accuracy :
  Regex.compile "Test Accuracy ([0-9\.]+)%" = Some test_accuracy_regex.
Proof. vm_compute. reflexivity. Qed.

Lemma string_length_app (d s : string) :
  String.length (d +:+ s) = String.length d + String.length s.
Proof.
  induction d as [|c d IH]; [done|].
  change (S (String.length (d +:+ s)) = S (String.length d + String.length s)).
  by rewrite IH.
Qed.

Lemma substring_prefix (d s : string) :
  String.substring 0 (String.length d) (d +:+ s) = d.
Proof.
  induction d as [|c d IH].
  - by destruct s.
  - change (String c (String.substring 0 (String.length d) (d +:+ s))
            = String c d).
    by rewrite IH.
Qed.

Lemma consumed_app (d s : string) : Regex.consumed (d +:+ s) s = d.
Proof.
  unfold Regex.consumed. rewrite string_length_app.
  replace (String.length d + String.length s - String.length s)
    with (String.length d) by lia.
  apply substring_prefix.
Qed.

Lemma matches_literal (w : string) (r : Regex.regex) (s : string)
    (cs : Regex.captures) (k : Regex.cont) :
  Regex.matches (literal w r) s cs k
  = match strip_prefix w s with
    | Some t => Regex.matches r t cs k
    | None => None
    end.
Proof.
  revert s. induction w as [|c w IH]; intros s; [done|].
  cbn. destruct s as [|x t]; [done|]. destruct (Ascii.eqb x c); [apply IH|done].
Qed.

Lemma iterate_succ (step : string -> Regex.captures -> Regex.cont -> option Regex.captures)
    (k : Regex.cont) (n : nat) (s : string) (cs : Regex.captures) :
  Regex.iterate step k (S n) s cs
  = match step s cs (fun s' cs' =>
            if String.length s' <? String.length s
            then Regex.iterate step k n s' cs' else None) with
    | Some res => Some res
    | None => k s cs
    end.
Proof. reflexivity. Qed.

Lemma matches_class (items : list Regex.class_item) (s : string)
    (cs : Regex.captures) (k : Regex.cont) :
  Regex.matches (Regex.Class false items) s cs k
  = match s with
    | String x t => if Regex.in_class x items then k t cs else None
    | EmptyString => None
    end.
Proof. by destruct s. Qed.

(** Greedy repetition of a character class in front of a continuation
    that cannot start on a character of the class: the repetition
    takes the whole run and the continuation goes on after it. *)
Lemma iterate_class (items : list Regex.class_item) (k : Regex.cont)
    (step : string -> Regex.captures -> Regex.cont -> option Regex.captures) :
  (forall s cs k', step s cs k'
                   = match s with
                     | String x t => if Regex.in_class x items then k' t cs else None
                     | EmptyString => None
                     end) ->
  (forall x t cs, Regex.in_class x items = true -> k (String x t) cs = None) ->
  forall s n cs,
    String.length s <= n ->
    Regex.iterate step k n s cs = k (skip_class items s) cs.
Proof.
  intros Hstep Hk s. induction s as [|x t IH]; intros n cs Hn.
  - destruct n; [done|]. by rewrite iterate_succ, Hstep.
  - destruct n as [|n]; [cbn in Hn; lia|].
    rewrite iterate_succ, Hstep.
    change (skip_class items (String x t))
      with (if Regex.in_class x items then skip_class items t else String x t).
    destruct (Regex.in_class x items) eqn:Hx; [|done].
    replace (String.length t <? String.length (String x t)) with true
      by (symmetry; apply Nat.ltb_lt; cbn; lia).
    rewrite IH by (cbn in Hn; lia).
    destruct (k (skip_class items t) cs) eqn:Hres; [done|].
    by apply Hk.
Qed.

Lemma percent_not_in_class (x : ascii) :
  Regex.in_class x digits_and_dots = true -> Ascii.eqb x "%" = false.
Proof.
  intros Hx. destruct (Ascii.eqb x "%") eqn:E; [|done].
  apply Ascii.eqb_eq in E. subst x. discriminate Hx.
Qed.

(** What the part after the literal text does at a position. *)
Lemma matches_number_then_percent (s : string) (cs : Regex.captures) :
  Regex.matches number_then_percent s cs found
  = match s with
    | String x t =>
        if Regex.in_class x digits_and_dots then
          match skip_class digits_and_dots t with
          | String y _ =>
              if Ascii.eqb y "%"
              then Some ((1, Regex.consumed s (skip_class digits_and_dots t)) :: cs)
              else None
          | EmptyString => None
          end
        else None
    | EmptyString => None
    end.
Proof.
  destruct s as [|x t]; [done|].
  change (Regex.matches number_then_percent (String x t) cs found)
    with (if Regex.in_class x digits_and_dots
          then Regex.iterate (Regex.matches (Regex.Class false digits_and_dots))
                 (fun s' cs' =>
                    Regex.matches (Regex.Seq (Regex.Char "%") Regex.Empty) s'
                      ((1, Regex.consumed (String x t) s') :: cs') found)
                 (String.length t) t cs
          else None).
  destruct (Regex.in_class x digits_and_dots) eqn:Hx; [|done].
  rewrite (iterate_class digits_and_dots); [| apply matches_class | | done].
  - by destruct (skip_class digits_and_dots t) as [|y u].
  - intros y u cs' Hy.
    change (Regex.matches (Regex.Seq (Regex.Char "%") Regex.Empty) (String y u)
              ((1, Regex.consumed (String x t) (String y u)) :: cs') found)
      with (if Ascii.eqb y "%"
            then Some ((1, Regex.consumed (String x t) (String y u)) :: cs')
            else None).
    by rewrite (percent_not_in_class y Hy).
Qed.

Lemma match_here_test_accuracy (s : string) :
  Regex.match_here test_accuracy_regex s
  = match strip_prefix "Test Accuracy " s with
    | Some t => Regex.matches number_then_percent t [] found
    | None => None
    end.
Proof. apply matches_literal. Qed.

(** Every match of the pattern captures group 1 and nothing else. *)
Lemma match_here_captures (s : string) (cs : Regex.captures) :
  Regex.match_here test_accuracy_regex s = Some cs ->
  exists g, cs = [(1, g)].
Proof.
  rewrite match_here_test_accuracy.
  destruct (strip_prefix "Test Accuracy " s) as [t|]; [|done].
  rewrite matches_number_then_percent.
  destruct t as [|x t]; [done|].
  destruct (Regex.in_class x digits_and_dots); [|done].
  destruct (skip_class digits_and_dots t) as [|y u]; [done|].
  destruct (Ascii.eqb y "%"); [|done].
  intros [= <-]. by eexists.
Qed.

Lemma search_captures (s : string) (cs : Regex.captures) :
  Regex.search test_accuracy_regex s = Some cs ->
  exists g, cs = [(1, g)].
Proof.
  induction s as [|x t IH]; cbn [Regex.search].
  - destruct (Regex.match_here test_accuracy_regex EmptyString) eqn:E; [|done].
    intros [= <-]. by apply (match_here_captures EmptyString).
  - destruct (Regex.match_here test_accuracy_regex (String x t)) eqn:E; [|done].
    intros [= <-]. by apply (match_here_captures (String x t)).
Qed.

(** A match at some position is found by the search, unless an earlier
    one is. *)
Lemma search_finds (r : Regex.regex) (pre s : string) (cs : Regex.captures) :
  Regex.match_here r s = Some cs ->
  exists cs', Regex.search r (pre +:+ s) = Some cs'.
Proof.
  intros Hs. induction pre as [|x pre IH].
  - change (EmptyString +:+ s) with s. exists cs.
    destruct s; cbn [Regex.search]; by rewrite Hs.
  - change (String x pre +:+ s) with (String x (pre +:+ s)).
    cbn [Regex.search].
    destruct (Regex.match_here r (String x (pre +:+ s))) as [cs0|]; [by eexists|].
    exact IH.
Qed.

(** The match that starts at the text [Test Accuracy 91.2%], whatever
    follows it. *)
Lemma match_here_at_text (post : string) :
  Regex.match_here test_accuracy_regex ("Test Accuracy 91.2%" +:+ post)
  = Some [(1, "91.2")].
Proof.
  rewrite match_here_test_accuracy.
  change (strip_prefix "Test Accuracy " ("Test Accuracy 91.2%" +:+ post))
    with (Some ("91.2" +:+ String "%" post)).
  cbv beta iota.
  rewrite matches_number_then_percent.
  change ("91.2" +:+ String "%" post)
    with (String "9" ("1.2" +:+ String "%" post)).
  cbv beta iota.
  change (Regex.in_class "9" digits_and_dots) with true.
  change (skip_class digits_and_dots ("1.2" +:+ String "%" post))
    with (String "%" post).
  cbv beta iota.
  change (Ascii.eqb "%" "%") with true.
  cbv beta iota.
  change (String "9" ("1.2" +:+ String "%" post))
    with ("91.2" +:+ String "%" post).
  by rewrite consumed_app.
Qed.

(** The text after a line without a capital T in the literal part: a
    position before the text at which the pattern does not match the
    prefix does not match the whole line either. *)
Lemma strip_prefix_before_T (w p rest : string) :
  has_no_T w = true ->
  strip_prefix w (p +:+ String "T" rest)
  = match strip_prefix w p with
    | Some t => Some (t +:+ String "T" rest)
    | None => None
    end.
Proof.
  revert p. induction w as [|c w IH]; intros p Hw; [done|].
  cbn [has_no_T] in Hw. apply andb_true_iff in Hw as [Hc Hw].
  destruct p as [|x p].
  - change (EmptyString +:+ String "T" rest) with (String "T" rest).
    cbn [strip_prefix].
    destruct (Ascii.eqb "T" c) eqn:E; [|done].
    apply Ascii.eqb_eq in E. subst c. discriminate Hc.
  - change (String x p +:+ String "T" rest)
      with (String x (p +:+ String "T" rest)).
    cbn [strip_prefix]. destruct (Ascii.eqb x c); [by apply IH|done].
Qed.

Lemma skip_class_before_T (t rest : string) :
  skip_class digits_and_dots (t +:+ String "T" rest)
  = skip_class digits_and_dots t +:+ String "T" rest.
Proof.
  induction t as [|x t IH]; [done|].
  change (String x t +:+ String "T" rest)
    with (String x (t +:+ String "T" rest)).
  cbn [skip_class]. destruct (Regex.in_class x digits_and_dots); [exact IH|done].
Qed.

Lemma number_then_percent_before_T (p rest : string) :
  Regex.matches number_then_percent p [] found = None ->
  Regex.matches number_then_percent (p +:+ String "T" rest) [] found = None.
Proof.
  rewrite !matches_number_then_percent.
  destruct p as [|x t].
  - intros _. change (EmptyString +:+ String "T" rest) with (String "T" rest).
    reflexivity.
  - change (String x t +:+ String "T" rest)
      with (String x (t +:+ String "T" rest)).
    cbv beta iota.
    destruct (Regex.in_class x digits_and_dots); [|done].
    rewrite skip_class_before_T.
    destruct (skip_class digits_and_dots t) as [|y u].
    + intros _. change (EmptyString +:+ String "T" rest) with (String "T" rest).
      reflexivity.
    + change (String y u +:+ String "T" rest)
        with (String y (u +:+ String "T" rest)).
      cbv beta iota. by destruct (Ascii.eqb y "%").
Qed.

Lemma match_here_before_T (x : ascii) (p rest : string) :
  Regex.match_here test_accuracy_regex (String x p) = None ->
  Regex.match_here test_accuracy_regex (String x p +:+ String "T" rest) = None.
Proof.
  rewrite !match_here_test_accuracy.
  change (String x p +:+ String "T" rest)
    with (String x (p +:+ String "T" rest)).
  change (strip_prefix "Test Accuracy " (String x p))
    with (if Ascii.eqb x "T" then strip_prefix "est Accuracy " p else None).
  change (strip_prefix "Test Accuracy " (String x (p +:+ String "T" rest)))
    with (if Ascii.eqb x "T"
          then strip_prefix "est Accuracy " (p +:+ String "T" rest) else None).
  destruct (Ascii.eqb x "T"); [|done].
  rewrite strip_prefix_before_T by reflexivity.
  destruct (strip_prefix "est Accuracy " p) as [t|]; [|done].
  apply number_then_percent_before_T.
Qed.

(** If the pattern matches nowhere in [pre], the search in a line that
    continues with the text goes on to the text. *)
Lemma search_before_T (pre rest : string) :
  Regex.search test_accuracy_regex pre = None ->
  Regex.search test_accuracy_regex (pre +:+ String "T" rest)
  = Regex.search test_accuracy_regex (String "T" rest).
Proof.
  induction pre as [|x pre IH]; [done|].
  cbn [Regex.search].
  destruct (Regex.match_here test_accuracy_regex (String x pre)) eqn:E; [done|].
  intros Hpre.
  change (String x pre +:+ String "T" rest)
    with (String x (pre +:+ String "T" rest)).
  cbn [Regex.search].
  change (String x (pre +:+ String "T" rest))
    with (String x pre +:+ String "T" rest).
  rewrite (match_here_before_T x pre rest E). by apply IH.
Qed.

(** ** Symbolic execution of a notebook against an arbitrary client *)

Ltac unfold_run :=
  cbv beta iota zeta delta
    [mbind mret M_bind M_ret do_perform do_answer do_bang record lift
     new_dict setitem contents construct construct_tuner fit fit_tuner print
     setup conda_install check_status run program
     run_pytorch_gcn run_mxnet_gcn run_kge_mxnet run_mxnet_gcmc
     run_pytorch_gcn_hypertune run_pytorch_gcn_tox21
     run_pytorch_gcn_tox21_hypertune
     world heap journal fst snd perform answer].

(** Once the client has answered, the heap and the journal are concrete
    lists. *)
Ltac unfold_heap :=
  cbv beta iota zeta delta
    [deref from_option id lookup list_lookup alter list_alter app length
     hyperparameters hyperparameter_ranges estimator HyperparameterTuner].

(** One step: split on the outcome of the next call to the client (the
    outcome of a [!] command is not looked at), or resolve the next
    format call. *)
Ltac run_step pf an :=
  first
    [ match goal with
      | |- context [pf (bang ?c) ?w] => destruct (pf (bang c) w) as [? ?]
      end
    | match goal with
      | |- context [pf ?c ?w] => destruct (pf c w) as [[[]|?] ?]
      end
    | match goal with
      | |- context [an ?q ?w] => destruct (an q w) as [[?|?] ?]
      end
    | rewrite format_image_template
    | rewrite format_image_template_latest
    | rewrite format_artifacts ];
  cbv beta iota.

Ltac run_notebook sdk :=
  let pf := fresh "pf" in
  let an := fresh "an" in
  let r := fresh "r" in
  let st := fresh "st" in
  let Hrun := fresh "Hrun" in
  destruct sdk as [pf an];
  match goal with
  | |- context [run ?c ?nb ?w] => destruct (run c nb w) as [r st] eqn:Hrun
  end;
  revert Hrun; unfold_run; repeat run_step pf an;
  intros Hrun; injection Hrun as <- <-; unfold_heap.

Ltac observe :=
  cbv beta iota zeta delta
    [training_submissions tuning_submissions submission_calls created tuners
     accounts regions uploads omap list_omap is_submission length last
     fst snd].

(** Evaluation of a run against one of the two concrete clients. *)
Ltac unfold_client :=
  cbv beta iota zeta delta
    [mbind mret M_bind M_ret do_perform do_answer do_bang record lift
     new_dict setitem contents construct construct_tuner fit fit_tuner print
     setup conda_install check_status run program
     run_pytorch_gcn run_mxnet_gcn run_kge_mxnet run_mxnet_gcmc
     run_pytorch_gcn_hypertune run_pytorch_gcn_tox21
     run_pytorch_gcn_tox21_hypertune
     world heap journal fst snd perform answer
     obliging exhausted is_submission].

Ltac run_concrete :=
  repeat (unfold_client;
          first [ rewrite format_image_template
                | rewrite format_image_template_latest
                | rewrite format_artifacts ]);
  unfold_client; unfold_heap; observe.

Example obliging_run_completes : (run obliging mxnet_gcmc 0).1 = Ok tt.
Proof. run_concrete. reflexivity. Qed.

Example obliging_run_calls :
  world (run obliging pytorch_gcn_hypertune 0).2 = 10.
Proof. run_concrete. reflexivity. Qed.

Example exhausted_run_fails :
  (run exhausted kge_mxnet 0).1 = Raise ResourceLimitExceeded.
Proof. run_concrete. reflexivity. Qed.

(** Membership in the concrete list an observation evaluates to. *)
Ltac in_cases H :=
  cbv beta iota delta [In] in H;
  repeat (destruct H as [H | H]); try (exfalso; exact H).

(** ** Job submission *)









(** ** Hyperparameters *)

(** C2. In every run of every notebook, the hyperparameter dictionary
    an estimator constructor is given, and the dictionary the estimator
    refers to when it is submitted (for training or inside a tuner),
    is the dictionary of the items the notebook wrote: it binds key [k]
    to value [v] exactly when the notebook wrote [k: v], with the value
    as written. *)
Theorem hyperparameters_passed_unchanged {W} (sdk : Client W) (w : W)
    (nb : notebook) :
  let j := journal (run sdk nb w).2 in
  let written := written_hyperparameters nb in
  (forall e hp, In (e, hp) (created j) ->
     hp = display written
     /\ forall k v, hp !! k = Some v <-> In (k, v) written)
  /\ (forall s, In s (training_submissions j) ->
        job_hyperparameters s = display written
        /\ forall k v, job_hyperparameters s !! k = Some v <-> In (k, v) written)
  /\ (forall s, In s (tuning_submissions j) ->
        tuning_hyperparameters s = display written
        /\ forall k v, tuning_hyperparameters s !! k = Some v <-> In (k, v) written).
Proof.
  intros j written; subst j written.
  pose proof (written_hyperparameters_distinct nb) as Hnd.
  assert (Hkv : forall hp : pydict,
             hp = display (written_hyperparameters nb) ->
             hp = display (written_hyperparameters nb)
             /\ forall k v, hp !! k = Some v
                            <-> In (k, v) (written_hyperparameters nb)).
  { intros hp ->. split; [done|]. intros k v. by apply display_lookup. }
  clear Hnd.
  destruct nb.
  all: run_notebook sdk; observe.
  all: split; [|split].
  all: try (intros ? ? Hin; in_cases Hin; injection Hin as <- <-).
  all: try (intros ? Hin; in_cases Hin; subst).
  all: apply Hkv; reflexivity.
Qed.

Lemma hyperparameters_passed_unchanged_witness :
  (exists e hp,
     In (e, hp) (created (journal (run obliging kge_mxnet 0).2))
     /\ hp !! "batch_size" = Some (PInt 1024))
  /\ (exists s,
        In s (training_submissions (journal (run obliging kge_mxnet 0).2))
        /\ job_hyperparameters s !! "lr" = Some (PFloat (1 # 10)))
  /\ (exists s,
        In s (tuning_submissions (journal (run obliging pytorch_gcn_hypertune 0).2))
        /\ tuning_hyperparameters s !! "dataset" = Some (PStr "cora")).
Proof.
  split; [|split].
  - assert (H : exists x, In x (created (journal (run obliging kge_mxnet 0).2)))
      by (run_concrete; eexists; left; reflexivity).
    destruct H as [[e hp] H]. exists e, hp. split; [exact H|].
    apply (proj2 (proj1 (hyperparameters_passed_unchanged
                           obliging 0 kge_mxnet) e hp H)).
    vm_compute. tauto.
  - assert (H : exists x,
               In x (training_submissions (journal (run obliging kge_mxnet 0).2)))
      by (run_concrete; eexists; left; reflexivity).
    destruct H as [s H]. exists s. split; [exact H|].
    apply (proj2 (proj1 (proj2 (hyperparameters_passed_unchanged
                                  obliging 0 kge_mxnet)) s H)).
    vm_compute. tauto.
  - assert (H : exists x,
               In x (tuning_submissions
                       (journal (run obliging pytorch_gcn_hypertune 0).2)))
      by (run_concrete; eexists; left; reflexivity).
    destruct H as [s H]. exists s. split; [exact H|].
    apply (proj2 (proj2 (proj2 (hyperparameters_passed_unchanged
                                  obliging 0 pytorch_gcn_hypertune)) s H)).
    vm_compute. tauto.
Defined.

(** C9. In both tox21 notebooks the hyperparameters of the estimator,
    as constructed and as submitted, are the single item
    [entrypoint: main.py], and the estimator has no entry point of its
    own. *)
Theorem tox21_entrypoint_in_hyperparameters {W} (sdk : Client W) (w : W)
    (nb : notebook) :
  is_tox21 nb = true ->
  let j := journal (run sdk nb w).2 in
  (forall e hp, In (e, hp) (created j) ->
     hp = {[ "entrypoint" := PStr "main.py" ]}
     /\ dom hp = {[ "entrypoint" ]}
     /\ entry_point e = None)
  /\ (forall s, In s (training_submissions j) ->
        job_hyperparameters s = {[ "entrypoint" := PStr "main.py" ]}
        /\ entry_point (job s) = None)
  /\ (forall s, In s (tuning_submissions j) ->
        tuning_hyperparameters s = {[ "entrypoint" := PStr "main.py" ]}
        /\ entry_point (estimator (tuning s)) = None).
Proof.
  intros Hnb j; subst j.
  destruct nb; try discriminate Hnb; clear Hnb.
  all: run_notebook sdk; observe.
  all: split; [|split].
  all: try (intros ? ? Hin; in_cases Hin; injection Hin as <- <-).
  all: try (intros ? Hin; in_cases Hin; subst).
  all: repeat split.
  all: apply dom_singleton_L.
Qed.

Lemma tox21_entrypoint_in_hyperparameters_witness :
  (exists e hp,
     In (e, hp) (created (journal (run obliging pytorch_gcn_tox21 0).2))
     /\ hp = {[ "entrypoint" := PStr "main.py" ]} /\ entry_point e = None)
  /\ (exists s,
        In s (training_submissions (journal (run obliging pytorch_gcn_tox21 0).2))
        /\ job_hyperparameters s = {[ "entrypoint" := PStr "main.py" ]})
  /\ (exists s,
        In s (tuning_submissions
                (journal (run obliging pytorch_gcn_tox21_hypertune 0).2))
        /\ tuning_hyperparameters s = {[ "entrypoint" := PStr "main.py" ]}).
Proof.
  split; [|split].
  - assert (H : exists x,
               In x (created (journal (run obliging pytorch_gcn_tox21 0).2)))
      by (run_concrete; eexists; left; reflexivity).
    destruct H as [[e hp] H]. exists e, hp. split; [exact H|].
    pose proof (proj1 (tox21_entrypoint_in_hyperparameters
                         obliging 0 pytorch_gcn_tox21 eq_refl) e hp H) as P.
    split; [exact (proj1 P) | exact (proj2 (proj2 P))].
  - assert (H : exists x,
               In x (training_submissions
                       (journal (run obliging pytorch_gcn_tox21 0).2)))
      by (run_concrete; eexists; left; reflexivity).
    destruct H as [s H]. exists s. split; [exact H|].
    exact (proj1 (proj1 (proj2 (tox21_entrypoint_in_hyperparameters
                                  obliging 0 pytorch_gcn_tox21 eq_refl)) s H)).
  - assert (H : exists x,
               In x (tuning_submissions
                       (journal (run obliging pytorch_gcn_tox21_hypertune 0).2)))
      by (run_concrete; eexists; left; reflexivity).
    destruct H as [s H]. exists s. split; [exact H|].
    exact (proj1 (proj2 (proj2 (tox21_entrypoint_in_hyperparameters
                                  obliging 0 pytorch_gcn_tox21_hypertune eq_refl))
                    s H)).
Defined.

(** ** Image references *)

(** C1. Formatting the image template with account [a], region [r],
    repository [n] and tag [t] gives [a], the text [.dkr.ecr.], [r],
    the text [.amazonaws.com/], [n], a colon and [t], in this order
    and nothing else (the template that ends in [:latest] gives the tag
    [latest]); and the image every estimator of every notebook is
    constructed with is this concatenation for the account and the
    region the client reported and the repository name and tag of the
    notebook. *)
Theorem image_reference_formatted :
  (forall a r n t : string,
     PyFormat.format image_template [a; r; n; t]
     = Ok (a +:+ ".dkr.ecr." +:+ r +:+ ".amazonaws.com/" +:+ n +:+ ":" +:+ t))
  /\ (forall a r n : string,
        PyFormat.format image_template_latest [a; r; n]
        = Ok (a +:+ ".dkr.ecr." +:+ r +:+ ".amazonaws.com/" +:+ n
                +:+ ":" +:+ "latest"))
  /\ (forall W (sdk : Client W) (w : W) (nb : notebook) e hp,
        In (e, hp) (created (journal (run sdk nb w).2)) ->
        exists a r,
          accounts (journal (run sdk nb w).2) = [a]
          /\ regions (journal (run sdk nb w).2) = [r]
          /\ image_name e
             = a +:+ ".dkr.ecr." +:+ r +:+ ".amazonaws.com/"
                 +:+ docker_name nb +:+ ":" +:+ docker_tag nb).
Proof.
  split; [exact format_image_template|].
  split; [exact format_image_template_latest|].
  intros W sdk w nb e hp Hin. revert Hin.
  destruct nb.
  all: run_notebook sdk; observe; intros Hin; in_cases Hin.
  all: injection Hin as <- <-.
  all: eexists _, _; repeat split.
Qed.

Lemma image_reference_formatted_witness :
  exists e hp,
    In (e, hp) (created (journal (run obliging mxnet_gcn 0).2))
    /\ image_name e
       = "123456789012.dkr.ecr.us-east-2.amazonaws.com/beta-mxnet-training:1.6.0-py3-gpu-build".
Proof.
  assert (H : exists x, In x (created (journal (run obliging mxnet_gcn 0).2)))
    by (run_concrete; eexists; left; reflexivity).
  destruct H as [[e hp] H]. exists e, hp. split; [exact H|].
  destruct (proj2 (proj2 image_reference_formatted) nat obliging 0 mxnet_gcn e hp H)
    as (a & r & Ha & Hr & ->).
  revert Ha Hr. run_concrete. intros [= <-] [= <-]. reflexivity.
Defined.

(** ** Tuning *)

(** C3. Every tuner a notebook constructs, and every tuning
    configuration it submits, has [max_parallel_jobs = 2] and
    [max_jobs = 6], so that the parallel limit does not exceed the
    total; what is submitted is the tuner that was constructed. *)
Theorem parallel_jobs_within_total {W} (sdk : Client W) (w : W) (nb : notebook) :
  let j := journal (run sdk nb w).2 in
  (forall t rg o, In (t, rg, o) (tuners j) ->
     (max_parallel_jobs t <= max_jobs t)%Z
     /\ max_parallel_jobs t = 2%Z /\ max_jobs t = 6%Z)
  /\ (forall s, In s (tuning_submissions j) ->
        (max_parallel_jobs (tuning s) <= max_jobs (tuning s))%Z
        /\ max_parallel_jobs (tuning s) = 2%Z /\ max_jobs (tuning s) = 6%Z
        /\ exists rg o, tuners j = [(tuning s, rg, o)]).
Proof.
  intros j; subst j.
  destruct nb.
  all: run_notebook sdk; observe.
  all: split.
  all: try (intros ? ? ? Hin; in_cases Hin; injection Hin as <- <- <-).
  all: try (intros ? Hin; in_cases Hin; subst).
  all: cbv [max_parallel_jobs max_jobs tuning].
  all: repeat split; try lia.
  all: eexists _, _; reflexivity.
Qed.

Lemma parallel_jobs_within_total_witness :
  (exists t rg o,
     In (t, rg, o) (tuners (journal (run obliging pytorch_gcn_hypertune 0).2))
     /\ (max_parallel_jobs t <= max_jobs t)%Z)
  /\ (exists s,
        In s (tuning_submissions
                (journal (run obliging pytorch_gcn_tox21_hypertune 0).2))
        /\ (max_parallel_jobs (tuning s) <= max_jobs (tuning s))%Z).
Proof.
  split.
  - assert (H : exists x,
               In x (tuners (journal (run obliging pytorch_gcn_hypertune 0).2)))
      by (run_concrete; eexists; left; reflexivity).
    destruct H as [[[t rg] o] H]. exists t, rg, o. split; [exact H|].
    exact (proj1 (proj1 (parallel_jobs_within_total
                           obliging 0 pytorch_gcn_hypertune) t rg o H)).
  - assert (H : exists x,
               In x (tuning_submissions
                       (journal (run obliging pytorch_gcn_tox21_hypertune 0).2)))
      by (run_concrete; eexists; left; reflexivity).
    destruct H as [s H]. exists s. split; [exact H|].
    exact (proj1 (proj2 (parallel_jobs_within_total
                           obliging 0 pytorch_gcn_tox21_hypertune) s H)).
Defined.

(** C7. A tuner constructed without an [objective_type] argument has
    direction [Maximize]; every tuner the notebooks construct is
    constructed without that argument, so every tuning configuration
    they construct or submit maximizes. *)
Theorem tuner_direction_defaults_to_maximize :
  (forall est name ranges defs total parallel,
     objective_type (HyperparameterTuner est name ranges defs None total parallel)
     = Maximize)
  /\ (forall W (sdk : Client W) (w : W) (nb : notebook),
        (forall t rg o, In (t, rg, o) (tuners (journal (run sdk nb w).2)) ->
           o = None /\ objective_type t = Maximize)
        /\ (forall s, In s (tuning_submissions (journal (run sdk nb w).2)) ->
              objective_type (tuning s) = Maximize)).
Proof.
  split; [reflexivity|].
  intros W sdk w nb.
  destruct nb.
  all: run_notebook sdk; observe.
  all: split.
  all: try (intros ? ? ? Hin; in_cases Hin; injection Hin as <- <- <-).
  all: try (intros ? Hin; in_cases Hin; subst).
  all: repeat split.
Qed.

Lemma tuner_direction_defaults_to_maximize_witness :
  (exists t rg o,
     In (t, rg, o) (tuners (journal (run obliging pytorch_gcn_hypertune 0).2))
     /\ o = None /\ objective_type t = Maximize)
  /\ (exists s,
        In s (tuning_submissions
                (journal (run obliging pytorch_gcn_tox21_hypertune 0).2))
        /\ objective_type (tuning s) = Maximize).
Proof.
  split.
  - assert (H : exists x,
               In x (tuners (journal (run obliging pytorch_gcn_hypertune 0).2)))
      by (run_concrete; eexists; left; reflexivity).
    destruct H as [[[t rg] o] H]. exists t, rg, o. split; [exact H|].
    exact (proj1 (proj2 tuner_direction_defaults_to_maximize
                    nat obliging 0 pytorch_gcn_hypertune) t rg o H).
  - assert (H : exists x,
               In x (tuning_submissions
                       (journal (run obliging pytorch_gcn_tox21_hypertune 0).2)))
      by (run_concrete; eexists; left; reflexivity).
    destruct H as [s H]. exists s. split; [exact H|].
    exact (proj2 (proj2 tuner_direction_defaults_to_maximize
                    nat obliging 0 pytorch_gcn_tox21_hypertune) s H).
Defined.

(** C10. In a tuning notebook the keys of the ranges given to the tuner
    and the keys of the hyperparameters fixed in the wrapped estimator
    are disjoint, at construction and at submission: [lr] and
    [n-epochs] against [dataset] in the GCN notebook, [lr], [patience]
    and [n_hidden] against [entrypoint] in the tox21 notebook. *)
Theorem ranges_disjoint_from_fixed {W} (sdk : Client W) (w : W) (nb : notebook) :
  let j := journal (run sdk nb w).2 in
  (forall t rg o, In (t, rg, o) (tuners j) ->
     exists hp,
       created j = [(estimator t, hp)]
       /\ dom rg ## dom hp
       /\ ((nb = pytorch_gcn_hypertune
            /\ dom rg = {[ "lr"; "n-epochs" ]} /\ dom hp = {[ "dataset" ]})
           \/ (nb = pytorch_gcn_tox21_hypertune
               /\ dom rg = {[ "lr"; "patience"; "n_hidden" ]}
               /\ dom hp = {[ "entrypoint" ]})))
  /\ (forall s, In s (tuning_submissions j) ->
        dom (tuning_ranges s) ## dom (tuning_hyperparameters s)
        /\ ((nb = pytorch_gcn_hypertune
             /\ dom (tuning_ranges s) = {[ "lr"; "n-epochs" ]}
             /\ dom (tuning_hyperparameters s) = {[ "dataset" ]})
            \/ (nb = pytorch_gcn_tox21_hypertune
                /\ dom (tuning_ranges s) = {[ "lr"; "patience"; "n_hidden" ]}
                /\ dom (tuning_hyperparameters s) = {[ "entrypoint" ]}))).
Proof.
  intros j; subst j.
  destruct nb.
  all: run_notebook sdk; observe.
  all: split.
  all: try (intros ? ? ? Hin; in_cases Hin; injection Hin as <- <- <-).
  all: try (intros ? Hin; in_cases Hin; subst).
  all: cbv [tuning_ranges tuning_hyperparameters tuning estimator].
  all: try (eexists; split; [reflexivity|]).
  all: split; [compute_done|].
  all: first [ left; split; [reflexivity|]; split; compute_done
             | right; split; [reflexivity|]; split; compute_done ].
Qed.

Lemma ranges_disjoint_from_fixed_witness :
  (exists t rg o hp,
     In (t, rg, o) (tuners (journal (run obliging pytorch_gcn_hypertune 0).2))
     /\ created (journal (run obliging pytorch_gcn_hypertune 0).2)
        = [(estimator t, hp)]
     /\ dom rg ## dom hp)
  /\ (exists s,
        In s (tuning_submissions
                (journal (run obliging pytorch_gcn_tox21_hypertune 0).2))
        /\ dom (tuning_ranges s) ## dom (tuning_hyperparameters s)).
Proof.
  split.
  - assert (H : exists x,
               In x (tuners (journal (run obliging pytorch_gcn_hypertune 0).2)))
      by (run_concrete; eexists; left; reflexivity).
    destruct H as [[[t rg] o] H].
    destruct (proj1 (ranges_disjoint_from_fixed
                       obliging 0 pytorch_gcn_hypertune) t rg o H)
      as (hp & Hc & Hd & _).
    exists t, rg, o, hp. split; [exact H|]. split; [exact Hc | exact Hd].
  - assert (H : exists x,
               In x (tuning_submissions
                       (journal (run obliging pytorch_gcn_tox21_hypertune 0).2)))
      by (run_concrete; eexists; left; reflexivity).
    destruct H as [s H]. exists s. split; [exact H|].
    exact (proj1 (proj2 (ranges_disjoint_from_fixed
                           obliging 0 pytorch_gcn_tox21_hypertune) s H)).
Defined.

(** ** Data channels *)

(** C8. The notebooks that pass data channels to [fit] pass exactly one
    channel, named [training-code], bound to the location that the one
    code upload of the run returned; the other notebooks pass no
    channels. *)
Theorem channels_bind_training_code {W} (sdk : Client W) (w : W) (nb : notebook) :
  let j := journal (run sdk nb w).2 in
  (forall s, In s (training_submissions j) ->
     if passes_channels nb
     then exists l, uploads j = [l]
                    /\ job_inputs s = Some {[ "training-code" := PStr l ]}
     else job_inputs s = None)
  /\ (forall s, In s (tuning_submissions j) ->
        passes_channels nb = true
        /\ exists l, uploads j = [l]
                     /\ tuning_inputs s = Some {[ "training-code" := PStr l ]}).
Proof.
  intros j; subst j.
  destruct nb.
  all: run_notebook sdk; observe.
  all: split.
  all: intros ? Hin; in_cases Hin; subst.
  all: cbv [passes_channels job_inputs tuning_inputs].
  all: try reflexivity.
  all: try (split; [reflexivity|]).
  all: eexists; split; reflexivity.
Qed.

Lemma channels_bind_training_code_witness :
  (exists s,
     In s (training_submissions (journal (run obliging pytorch_gcn_tox21 0).2))
     /\ job_inputs s
        = Some {[ "training-code" :=
                    PStr "s3://sagemaker-us-east-2-123456789012/customcode/main.py" ]})
  /\ (exists s,
        In s (tuning_submissions
                (journal (run obliging pytorch_gcn_hypertune 0).2))
        /\ tuning_inputs s
           = Some {[ "training-code" :=
                       PStr "s3://sagemaker-us-east-2-123456789012/customcode/./" ]}).
Proof.
  split.
  - assert (H : exists x,
               In x (training_submissions
                       (journal (run obliging pytorch_gcn_tox21 0).2)))
      by (run_concrete; eexists; left; reflexivity).
    destruct H as [s H]. exists s. split; [exact H|].
    destruct (proj1 (channels_bind_training_code obliging 0 pytorch_gcn_tox21) s H)
      as (l & Hl & ->).
    revert Hl. run_concrete. intros [= <-]. reflexivity.
  - assert (H : exists x,
               In x (tuning_submissions
                       (journal (run obliging pytorch_gcn_hypertune 0).2)))
      by (run_concrete; eexists; left; reflexivity).
    destruct H as [s H]. exists s. split; [exact H|].
    destruct (proj2 (channels_bind_training_code obliging 0 pytorch_gcn_hypertune) s H)
      as (_ & l & Hl & ->).
    revert Hl. run_concrete. intros [= <-]. reflexivity.
Defined.

(** ** Metric extraction *)

(** C4. The metric definition of the GCN tuning notebook has the
    pattern [Test Accuracy ([0-9\.]+)%].  Applied to the line
    [Test Accuracy 91.2%] it succeeds and captures [91.2].  Applied to
    any line that contains that text it succeeds; the match at the
    text captures exactly [91.2], whatever follows; and [91.2] is what
    is extracted whenever the pattern does not already match in the
    part of the line before the text.  The tuner of the notebook is
    constructed with this metric definition. *)
Theorem test_accuracy_pattern_extracts :
  (forall d, In d gcn_metric_definitions ->
     Regex d = "Test Accuracy ([0-9\.]+)%"
     /\ Regex.extract (Regex d) "Test Accuracy 91.2%" = Some "91.2"
     /\ forall pre post : string,
          (exists g,
             Regex.extract (Regex d) (pre +:+ "Test Accuracy 91.2%" +:+ post)
             = Some g)
          /\ (exists r,
                Regex.compile (Regex d) = Some r
                /\ Regex.match_here r ("Test Accuracy 91.2%" +:+ post)
                   = Some [(1, "91.2")])
          /\ (Regex.extract (Regex d) pre = None ->
              Regex.extract (Regex d) (pre +:+ "Test Accuracy 91.2%" +:+ post)
              = Some "91.2"))
  /\ (forall W (sdk : Client W) (w : W) t rg o,
        In (t, rg, o) (tuners (journal (run sdk pytorch_gcn_hypertune w).2)) ->
        metric_definitions t = gcn_metric_definitions).
Proof.
  split.
  - intros d [<-|[]]. cbn [Regex].
    split; [reflexivity|]. split; [vm_compute; reflexivity|].
    intros pre post. unfold Regex.extract. rewrite compile_test_accuracy.
    split; [|split].
    + destruct (search_finds test_accuracy_regex pre _ _ (match_here_at_text post))
        as [cs Hcs].
      rewrite Hcs. destruct (search_captures _ _ Hcs) as [g ->]. by exists g.
    + exists test_accuracy_regex. split; [reflexivity|apply match_here_at_text].
    + destruct (Regex.search test_accuracy_regex pre) as [cs|] eqn:Hpre.
      { destruct (search_captures _ _ Hpre) as [g ->]. discriminate. }
      intros _.
      change ("Test Accuracy 91.2%" +:+ post)
        with (String "T" ("est Accuracy 91.2%" +:+ post)).
      rewrite (search_before_T pre _ Hpre).
      change (String "T" ("est Accuracy 91.2%" +:+ post))
        with ("Test Accuracy 91.2%" +:+ post).
      change (Regex.search test_accuracy_regex ("Test Accuracy 91.2%" +:+ post))
        with (match Regex.match_here test_accuracy_regex
                      ("Test Accuracy 91.2%" +:+ post) with
              | Some cs => Some cs
              | None => Regex.search test_accuracy_regex
                          ("est Accuracy 91.2%" +:+ post)
              end).
      by rewrite match_here_at_text.
  - intros W sdk w t rg o Hin. revert Hin.
    run_notebook sdk; observe; intros Hin; in_cases Hin;
      injection Hin as <- <- <-; reflexivity.
Qed.

Lemma test_accuracy_pattern_extracts_witness :
  Regex.extract "Test Accuracy ([0-9\.]+)%"
    ("[epoch 199] " +:+ "Test Accuracy 91.2%" +:+ " | loss 0.31")
  = Some "91.2"
  /\ exists t rg o,
       In (t, rg, o) (tuners (journal (run obliging pytorch_gcn_hypertune 0).2))
       /\ metric_definitions t = gcn_metric_definitions.
Proof.
  split.
  - refine (proj2 (proj2 (proj2 (proj2 (proj1 test_accuracy_pattern_extracts
              {| Name := "Validation-accuracy";
                 Regex := "Test Accuracy ([0-9\.]+)%" |} _))
              "[epoch 199] " " | loss 0.31")) _).
    + left. reflexivity.
    + vm_compute. reflexivity.
  - assert (H : exists x,
               In x (tuners (journal (run obliging pytorch_gcn_hypertune 0).2)))
      by (run_concrete; eexists; left; reflexivity).
    destruct H as [[[t rg] o] H]. exists t, rg, o. split; [exact H|].
    exact (proj2 test_accuracy_pattern_extracts nat obliging 0 t rg o H).
Defined.

(** The claim without the condition fails: on a line that has an
    earlier accuracy before the text, the earlier one is extracted. *)
Lemma test_accuracy_pattern_extracts_counterexample :
  "prev Test Accuracy 90.7%, now Test Accuracy 91.2%"
  = "prev Test Accuracy 90.7%, now " +:+ "Test Accuracy 91.2%" +:+ EmptyString
  /\ Regex.extract "Test Accuracy ([0-9\.]+)%"
       "prev Test Accuracy 90.7%, now Test Accuracy 91.2%"
     = Some "90.7"
  /\ String.eqb "90.7" "91.2" = false.
Proof. split; [reflexivity|]. split; vm_compute; reflexivity. Qed.

(** * Further properties of the notebooks *)

Ltac observe_more :=
  cbv beta iota zeta delta
    [training_submissions tuning_submissions submission_calls created tuners
     accounts regions uploads roles buckets upload_calls print_calls
     status_queries job_names accepted_tunings
     omap list_omap is_submission is_bang length last fst snd].

(** ** Failures *)

(** X1. Whatever call to the client raises in a run, a submission or
    not, a command or a query, the run ends there with that exception:
    the failed call is the last thing the run did.  The [!] lines are
    left out, their outcome is ignored. *)
Theorem any_failure_ends_the_run {W} (sdk : Client W) (w : W) (nb : notebook) :
  (forall c e,
     is_bang c = false ->
     In (Performed c (Raise e)) (journal (run sdk nb w).2) ->
     (run sdk nb w).1 = Raise e
     /\ last (journal (run sdk nb w).2) = Some (Performed c (Raise e)))
  /\ (forall q e,
        In (Answered q (Raise e)) (journal (run sdk nb w).2) ->
        (run sdk nb w).1 = Raise e
        /\ last (journal (run sdk nb w).2) = Some (Answered q (Raise e))).
Proof.
  destruct nb.
  all: run_notebook sdk; observe_more.
  all: split.
  all: try (intros ? ? Hc Hin; in_cases Hin; try discriminate Hin;
            injection Hin as <- ?; try discriminate Hc; subst;
            split; reflexivity).
  all: intros ? ? Hin; in_cases Hin; try discriminate Hin;
       injection Hin as <- ?; subst; split; reflexivity.
Qed.

Ltac find_event := repeat first [ left; reflexivity | right ].

Lemma any_failure_ends_the_run_witness :
  exists c,
    last (journal (run exhausted pytorch_gcn 0).2)
    = Some (Performed c (Raise ResourceLimitExceeded))
    /\ (run exhausted pytorch_gcn 0).1 = Raise ResourceLimitExceeded.
Proof.
  assert (H : exists c,
            is_bang c = false
            /\ In (Performed c (Raise ResourceLimitExceeded))
                 (journal (run exhausted pytorch_gcn 0).2)).
  { run_concrete. eexists. split; [|find_event]. reflexivity. }
  destruct H as (c & Hb & Hin).
  destruct (proj1 (any_failure_ends_the_run exhausted 0 pytorch_gcn)
              c ResourceLimitExceeded Hb Hin) as [Hr Hl].
  exists c. split; [exact Hl | exact Hr].
Defined.

(** X2. A run fails only where the client fails: when a run ends with
    an exception, the last thing it did is a call to the client, not a
    [!] line, that raised this exception.  No notebook raises by
    itself, the formatting of the image name included. *)
Theorem every_failure_is_the_clients {W} (sdk : Client W) (w : W)
    (nb : notebook) (e : exn) :
  (run sdk nb w).1 = Raise e ->
  (exists c, is_bang c = false
             /\ last (journal (run sdk nb w).2) = Some (Performed c (Raise e)))
  \/ (exists q, last (journal (run sdk nb w).2) = Some (Answered q (Raise e))).
Proof.
  destruct nb.
  all: run_notebook sdk; observe_more.
  all: intros Hr; try discriminate Hr; injection Hr as <-.
  all: first [ left; eexists; split; [|reflexivity]; reflexivity
             | right; eexists; reflexivity ].
Qed.

Lemma every_failure_is_the_clients_witness :
  (exists c, is_bang c = false
             /\ last (journal (run exhausted mxnet_gcn 0).2)
                = Some (Performed c (Raise ResourceLimitExceeded)))
  \/ (exists q, last (journal (run exhausted mxnet_gcn 0).2)
                = Some (Answered q (Raise ResourceLimitExceeded))).
Proof.
  apply (every_failure_is_the_clients exhausted 0 mxnet_gcn).
  run_concrete. reflexivity.
Defined.

(** One step of a run in which every call of the client succeeds. *)
Ltac ok_step pf an Hp Ha :=
  first
    [ match goal with
      | |- context [pf (bang ?c) ?w] => destruct (pf (bang c) w) as [? ?]
      end
    | match goal with
      | |- context [pf ?c ?w] =>
          let H := fresh "H" in
          pose proof (Hp c w eq_refl) as H;
          destruct (pf c w) as [[[]|?] ?]; [clear H | discriminate H]
      end
    | match goal with
      | |- context [an ?q ?w] =>
          let H := fresh "H" in
          let v := fresh "v" in
          destruct (Ha q w) as [v H];
          destruct (an q w) as [[?|?] ?]; [clear H | discriminate H]
      end
    | rewrite format_image_template
    | rewrite format_image_template_latest
    | rewrite format_artifacts ];
  cbv beta iota.

(** X3. A run completes as soon as every command other than a [!] line
    succeeds and every query is answered, whatever the [!] lines
    return: a failing [cat] or [conda install] does not stop a
    notebook. *)
Theorem run_completes_when_calls_succeed {W} (sdk : Client W) (w : W)
    (nb : notebook) :
  (forall c w', is_bang c = false -> (perform sdk c w').1 = Ok tt) ->
  (forall q w', exists v, (answer sdk q w').1 = Ok v) ->
  (run sdk nb w).1 = Ok tt.
Proof.
  destruct sdk as [pf an]. cbn [perform answer]. intros Hp Ha.
  destruct nb.
  all: unfold_run; repeat ok_step pf an Hp Ha; reflexivity.
Qed.

Lemma run_completes_when_calls_succeed_witness :
  (run obliging kge_mxnet 0).1 = Ok tt.
Proof.
  apply (run_completes_when_calls_succeed obliging 0 kge_mxnet).
  - intros c w' _. reflexivity.
  - intros q w'. eexists. reflexivity.
Defined.

(** ** Tuning notebooks *)

(** X4. A tuning notebook never calls [fit] on an estimator: it makes
    at most one tuning submission, for the one tuner it constructed,
    and a run that completes made exactly one, accepted by the client,
    of the tuner that wraps the estimator the notebook constructed,
    with no objective direction given. *)
Theorem one_tuning_job_per_run {W} (sdk : Client W) (w : W) (nb : notebook) :
  is_tuning nb = true ->
  let j := journal (run sdk nb w).2 in
  training_submissions j = []
  /\ length (tuning_submissions j) <= 1
  /\ length (tuning_submissions j) = length (tuners j)
  /\ ((run sdk nb w).1 = Ok tt ->
      exists s,
        submission_calls j = [tuner_fit s]
        /\ accepted_tunings j = [s]
        /\ created j = [(estimator (tuning s), tuning_hyperparameters s)]
        /\ tuners j = [(tuning s, tuning_ranges s, None)]).
Proof.
  intros Hnb j; subst j.
  destruct nb; try discriminate Hnb; clear Hnb.
  all: run_notebook sdk; observe_more.
  all: split; [reflexivity|]; split; [lia|]; split; [reflexivity|].
  all: intros Hr; try discriminate Hr.
  all: eexists; split; [reflexivity|]; split; [reflexivity|].
  all: split; reflexivity.
Qed.

Lemma one_tuning_job_per_run_witness :
  exists s,
    submission_calls (journal (run obliging pytorch_gcn_hypertune 0).2)
    = [tuner_fit s]
    /\ accepted_tunings (journal (run obliging pytorch_gcn_hypertune 0).2) = [s]
    /\ created (journal (run obliging pytorch_gcn_hypertune 0).2)
       = [(estimator (tuning s), tuning_hyperparameters s)]
    /\ tuners (journal (run obliging pytorch_gcn_hypertune 0).2)
       = [(tuning s, tuning_ranges s, None)].
Proof.
  apply (one_tuning_job_per_run obliging 0 pytorch_gcn_hypertune eq_refl).
  run_concrete. reflexivity.
Defined.

(** X5. The status that closes a tuning notebook is asked for once,
    for the job name the tuner reported, and only after the client
    accepted the tuning submission; the other notebooks never ask. *)
Theorem status_asked_after_accepted_submission {W} (sdk : Client W) (w : W)
    (nb : notebook) (name : string) :
  In name (status_queries (journal (run sdk nb w).2)) ->
  is_tuning nb = true
  /\ job_names (journal (run sdk nb w).2) = [name]
  /\ status_queries (journal (run sdk nb w).2) = [name]
  /\ length (accepted_tunings (journal (run sdk nb w).2)) = 1.
Proof.
  destruct nb.
  all: run_notebook sdk; observe_more; intros Hin; in_cases Hin.
  all: subst; repeat split.
Qed.

Lemma status_asked_after_accepted_submission_witness :
  is_tuning pytorch_gcn_hypertune = true
  /\ job_names (journal (run obliging pytorch_gcn_hypertune 0).2)
     = ["pytorch-training-191212-0101"]
  /\ status_queries (journal (run obliging pytorch_gcn_hypertune 0).2)
     = ["pytorch-training-191212-0101"]
  /\ length (accepted_tunings (journal (run obliging pytorch_gcn_hypertune 0).2)) = 1.
Proof.
  apply (status_asked_after_accepted_submission obliging 0 pytorch_gcn_hypertune).
  run_concrete. find_event.
Defined.

Lemma written_ranges_distinct (nb : notebook) : NoDup (written_ranges nb).*1.
Proof. destruct nb; compute_done. Qed.

(** X6. The ranges a tuner is constructed with, and the ranges that
    are submitted, are the ranges the notebook wrote, and each of them
    can be explored: a continuous range has its lower end below its
    upper end, an integer range is not empty, a categorical range
    lists at least one value. *)
Theorem tuned_ranges_are_well_formed {W} (sdk : Client W) (w : W)
    (nb : notebook) :
  let j := journal (run sdk nb w).2 in
  (forall t rg o, In (t, rg, o) (tuners j) ->
     rg = display (written_ranges nb)
     /\ forall k v, rg !! k = Some v -> well_formed_range v)
  /\ (forall s, In s (tuning_submissions j) ->
        tuning_ranges s = display (written_ranges nb)
        /\ forall k v, tuning_ranges s !! k = Some v -> well_formed_range v).
Proof.
  intros j; subst j.
  assert (Hwf : forall rg : pydict,
            rg = display (written_ranges nb) ->
            rg = display (written_ranges nb)
            /\ forall k v, rg !! k = Some v -> well_formed_range v).
  { intros rg ->. split; [done|]. intros k v Hkv.
    apply display_lookup in Hkv; [|apply written_ranges_distinct].
    destruct nb; cbn [written_ranges In] in Hkv;
      repeat (destruct Hkv as [Hkv|Hkv]); try done;
      injection Hkv as <- <-; cbn [well_formed_range]; done. }
  destruct nb.
  all: run_notebook sdk; observe_more.
  all: split.
  all: try (intros ? ? ? Hin; in_cases Hin; injection Hin as <- <- <-).
  all: try (intros ? Hin; in_cases Hin; subst).
  all: apply Hwf; reflexivity.
Qed.

Lemma tuned_ranges_are_well_formed_witness :
  exists t rg o,
    In (t, rg, o) (tuners (journal (run obliging pytorch_gcn_tox21_hypertune 0).2))
    /\ rg = display (written_ranges pytorch_gcn_tox21_hypertune).
Proof.
  assert (H : exists x,
            In x (tuners (journal (run obliging pytorch_gcn_tox21_hypertune 0).2))).
  { run_concrete. eexists. left. reflexivity. }
  destruct H as [[[t rg] o] H].
  exists t, rg, o. split; [exact H|].
  exact (proj1 (proj1 (tuned_ranges_are_well_formed
                         obliging 0 pytorch_gcn_tox21_hypertune) t rg o H)).
Defined.

(** ** Estimators *)

(** X7. Every estimator is constructed under the execution role the
    client reported, which is asked for once, on one [ml.p3.2xlarge]
    instance, with the class of its notebook; the notebooks that use
    the generic [Estimator] class are exactly those that give no entry
    point. *)
Theorem estimator_runs_under_reported_role {W} (sdk : Client W) (w : W)
    (nb : notebook) (e : JobConfiguration) (hp : pydict) :
  In (e, hp) (created (journal (run sdk nb w).2)) ->
  roles (journal (run sdk nb w).2) = [role e]
  /\ train_instance_count e = 1%Z
  /\ train_instance_type e = "ml.p3.2xlarge"
  /\ estimator_cls e = estimator_class_of nb
  /\ (estimator_cls e = Estimator_cls <-> entry_point e = None).
Proof.
  destruct nb.
  all: run_notebook sdk; observe_more; intros Hin; in_cases Hin.
  all: injection Hin as <- <-.
  all: repeat split; discriminate.
Qed.

Lemma estimator_runs_under_reported_role_witness :
  exists e hp,
    In (e, hp) (created (journal (run obliging pytorch_gcn_tox21 0).2))
    /\ roles (journal (run obliging pytorch_gcn_tox21 0).2) = [role e]
    /\ estimator_cls e = Estimator_cls
    /\ entry_point e = None.
Proof.
  assert (H : exists x, In x (created (journal (run obliging pytorch_gcn_tox21 0).2))).
  { run_concrete. eexists. left. reflexivity. }
  destruct H as [[e hp] H].
  destruct (estimator_runs_under_reported_role obliging 0 pytorch_gcn_tox21 e hp H)
    as (Hr & _ & _ & Hc & Hiff).
  exists e, hp. split; [exact H|]. split; [exact Hr|]. split; [exact Hc|].
  apply Hiff. exact Hc.
Defined.

(** X8. The notebooks that pass no channel never upload; the others
    make one call of [upload_data], with the path of their training code,
    the bucket the client reported and the key prefix [customcode],
    and by the time the estimator is constructed that call has
    returned a location. *)
Theorem code_uploaded_once_before_construction {W} (sdk : Client W) (w : W)
    (nb : notebook) :
  let j := journal (run sdk nb w).2 in
  (upload_path nb = None -> upload_calls j = [])
  /\ (forall p b k, In (p, b, k) (upload_calls j) ->
        upload_path nb = Some p /\ buckets j = [b] /\ k = "customcode"
        /\ upload_calls j = [(p, b, k)])
  /\ (forall e hp, In (e, hp) (created j) ->
        passes_channels nb = true -> length (uploads j) = 1).
Proof.
  intros j; subst j.
  destruct nb.
  all: run_notebook sdk; observe_more.
  all: split; [first [reflexivity | discriminate]|]; split.
  all: try (intros ? ? ? Hin; in_cases Hin; injection Hin as <- <- <-;
            repeat split).
  all: try (intros ? ? Hin; in_cases Hin).
  all: first [ reflexivity | discriminate ].
Qed.

Lemma code_uploaded_once_before_construction_witness :
  exists p b k,
    In (p, b, k) (upload_calls (journal (run obliging pytorch_gcn_hypertune 0).2))
    /\ upload_path pytorch_gcn_hypertune = Some p
    /\ buckets (journal (run obliging pytorch_gcn_hypertune 0).2) = [b]
    /\ k = "customcode".
Proof.
  assert (H : exists x,
            In x (upload_calls (journal (run obliging pytorch_gcn_hypertune 0).2))).
  { run_concrete. eexists. find_event. }
  destruct H as [[[p b] k] H].
  destruct (proj1 (proj2 (code_uploaded_once_before_construction
                            obliging 0 pytorch_gcn_hypertune)) p b k H)
    as (Hp & Hb & Hk & _).
  exists p, b, k. split; [exact H|]. split; [exact Hp|]. split; [exact Hb|exact Hk].
Defined.



(** ** The metric patterns on arbitrary lines *)

Lemma compile_validation_score :
  Regex.compile "Best validation score ([0-9\.]+)" = Some validation_score_regex.
Proof. vm_compute. reflexivity. Qed.

Lemma take_skip_class (items : list Regex.class_item) (s : string) :
  take_class items s +:+ skip_class items s = s.
Proof.
  induction s as [|x t IH]; [done|].
  cbn [take_class skip_class]. destruct (Regex.in_class x items); [|done].
  change (String x (take_class items t +:+ skip_class items t) = String x t).
  by rewrite IH.
Qed.

Lemma take_class_all (items : list Regex.class_item) (s : string) :
  all_in_class items (take_class items s) = true.
Proof.
  induction s as [|x t IH]; [done|].
  cbn [take_class]. destruct (Regex.in_class x items) eqn:Hx; [|done].
  cbn [all_in_class]. by rewrite Hx, IH.
Qed.

Lemma skip_class_stops (items : list Regex.class_item) (s : string) :
  starts_in_class items (skip_class items s) = false.
Proof.
  induction s as [|x t IH]; [done|].
  cbn [skip_class]. destruct (Regex.in_class x items) eqn:Hx; [done|].
  cbn [starts_in_class]. done.
Qed.

Lemma skip_class_run (items : list Regex.class_item) (d rest : string) :
  all_in_class items d = true ->
  starts_in_class items rest = false ->
  skip_class items (d +:+ rest) = rest.
Proof.
  intros Hd Hrest. induction d as [|x d IH].
  - change (EmptyString +:+ rest) with rest.
    destruct rest as [|y u]; [done|]. cbn [skip_class].
    cbn [starts_in_class] in Hrest. by rewrite Hrest.
  - cbn [all_in_class] in Hd. apply andb_true_iff in Hd as [Hx Hd].
    change (String x d +:+ rest) with (String x (d +:+ rest)).
    cbn [skip_class]. rewrite Hx. by apply IH.
Qed.

Lemma take_class_run (items : list Regex.class_item) (d rest : string) :
  all_in_class items d = true ->
  starts_in_class items rest = false ->
  take_class items (d +:+ rest) = d.
Proof.
  intros Hd Hrest. induction d as [|x d IH].
  - change (EmptyString +:+ rest) with rest.
    destruct rest as [|y u]; [done|]. cbn [take_class].
    cbn [starts_in_class] in Hrest. by rewrite Hrest.
  - cbn [all_in_class] in Hd. apply andb_true_iff in Hd as [Hx Hd].
    change (String x d +:+ rest) with (String x (d +:+ rest)).
    cbn [take_class]. rewrite Hx. by rewrite IH.
Qed.

Lemma strip_prefix_app (w s : string) : strip_prefix w (w +:+ s) = Some s.
Proof.
  induction w as [|c w IH]; [done|].
  change (String c w +:+ s) with (String c (w +:+ s)).
  cbn [strip_prefix]. by rewrite Ascii.eqb_refl.
Qed.

Lemma strip_prefix_inv (w s t : string) :
  strip_prefix w s = Some t -> s = w +:+ t.
Proof.
  revert s. induction w as [|c w IH]; intros s.
  - by intros [= ->].
  - destruct s as [|x s]; [done|]. cbn [strip_prefix].
    destruct (Ascii.eqb x c) eqn:E; [|done].
    apply Ascii.eqb_eq in E as ->. intros H%IH.
    change (String c w +:+ t) with (String c (w +:+ t)). by rewrite H.
Qed.

(** The text a group over a class captures is the run it skipped. *)
Lemma consumed_run (items : list Regex.class_item) (x : ascii) (t : string) :
  Regex.consumed (String x t) (skip_class items t)
  = String x (take_class items t).
Proof.
  rewrite <- (take_skip_class items t) at 1.
  change (String x (take_class items t +:+ skip_class items t))
    with (String x (take_class items t) +:+ skip_class items t).
  apply consumed_app.
Qed.

Lemma iterate_class_greedy (items : list Regex.class_item) (k : Regex.cont)
    (step : string -> Regex.captures -> Regex.cont -> option Regex.captures) :
  (forall s cs k', step s cs k'
                   = match s with
                     | String x t => if Regex.in_class x items then k' t cs else None
                     | EmptyString => None
                     end) ->
  forall s n cs,
    String.length s <= n ->
    is_Some (k (skip_class items s) cs) ->
    Regex.iterate step k n s cs = k (skip_class items s) cs.
Proof.
  intros Hstep s. induction s as [|x t IH]; intros n cs Hn Hk.
  - destruct n; [done|]. by rewrite iterate_succ, Hstep.
  - destruct n as [|n]; [cbn in Hn; lia|].
    rewrite iterate_succ, Hstep. revert Hk.
    change (skip_class items (String x t))
      with (if Regex.in_class x items then skip_class items t else String x t).
    destruct (Regex.in_class x items) eqn:Hx; [|done].
    intros Hk.
    replace (String.length t <? String.length (String x t)) with true
      by (symmetry; apply Nat.ltb_lt; cbn; lia).
    rewrite IH by (first [cbn in Hn; lia | done]).
    by destruct Hk as [res ->].
Qed.

Lemma matches_number_group (s : string) (cs : Regex.captures) :
  Regex.matches number_group s cs found
  = match s with
    | String x t =>
        if Regex.in_class x digits_and_dots
        then Some ((1, String x (take_class digits_and_dots t)) :: cs)
        else None
    | EmptyString => None
    end.
Proof.
  destruct s as [|x t]; [done|].
  change (Regex.matches number_group (String x t) cs found)
    with (if Regex.in_class x digits_and_dots
          then Regex.iterate (Regex.matches (Regex.Class false digits_and_dots))
                 (fun s' cs' =>
                    Some ((1, Regex.consumed (String x t) s') :: cs'))
                 (String.length t) t cs
          else None).
  destruct (Regex.in_class x digits_and_dots) eqn:Hx; [|done].
  rewrite (iterate_class_greedy digits_and_dots); [| apply matches_class | done | done].
  by rewrite consumed_run.
Qed.

Lemma match_here_validation_score (s : string) :
  Regex.match_here validation_score_regex s
  = match strip_prefix "Best validation score " s with
    | Some t => Regex.matches number_group t [] found
    | None => None
    end.
Proof. apply matches_literal. Qed.


Lemma match_here_accuracy_run (d rest : string) :
  d <> EmptyString ->
  all_in_class digits_and_dots d = true ->
  Regex.match_here test_accuracy_regex ("Test Accuracy " +:+ d +:+ "%" +:+ rest)
  = Some [(1, d)].
Proof.
  intros Hne Hd.
  rewrite match_here_test_accuracy, strip_prefix_app, matches_number_then_percent.
  destruct d as [|x d]; [done|].
  cbn [all_in_class] in Hd. apply andb_true_iff in Hd as [Hx Hd].
  change (String x d +:+ "%" +:+ rest)
    with (String x (d +:+ String "%" rest)).
  cbv beta iota. rewrite Hx.
  rewrite (skip_class_run digits_and_dots d (String "%" rest) Hd eq_refl).
  cbv beta iota. change (Ascii.eqb "%" "%") with true. cbv beta iota.
  change (String x (d +:+ String "%" rest))
    with (String x d +:+ String "%" rest).
  by rewrite consumed_app.
Qed.

Lemma match_here_accuracy_inv (s : string) (cs : Regex.captures) :
  Regex.match_here test_accuracy_regex s = Some cs ->
  exists d rest,
    d <> EmptyString
    /\ all_in_class digits_and_dots d = true
    /\ s = "Test Accuracy " +:+ d +:+ "%" +:+ rest
    /\ cs = [(1, d)].
Proof.
  rewrite match_here_test_accuracy.
  destruct (strip_prefix "Test Accuracy " s) as [t|] eqn:Hs; [|done].
  apply strip_prefix_inv in Hs as ->.
  rewrite matches_number_then_percent.
  destruct t as [|x t]; [done|].
  destruct (Regex.in_class x digits_and_dots) eqn:Hx; [|done].
  destruct (skip_class digits_and_dots t) as [|y u] eqn:Hskip; [done|].
  destruct (Ascii.eqb y "%") eqn:Hy; [|done].
  apply Ascii.eqb_eq in Hy as ->. intros [= <-].
  exists (String x (take_class digits_and_dots t)), u.
  split; [done|]. split.
  { cbn [all_in_class]. by rewrite Hx, take_class_all. }
  split.
  - f_equal.
    change (String x t
            = String x (take_class digits_and_dots t +:+ String "%" u)).
    by rewrite <- Hskip, take_skip_class.
  - by rewrite <- Hskip, consumed_run.
Qed.

Lemma match_here_score_run (d rest : string) :
  d <> EmptyString ->
  all_in_class digits_and_dots d = true ->
  starts_in_class digits_and_dots rest = false ->
  Regex.match_here validation_score_regex ("Best validation score " +:+ d +:+ rest)
  = Some [(1, d)].
Proof.
  intros Hne Hd Hrest.
  rewrite match_here_validation_score, strip_prefix_app, matches_number_group.
  destruct d as [|x d]; [done|].
  cbn [all_in_class] in Hd. apply andb_true_iff in Hd as [Hx Hd].
  change (String x d +:+ rest) with (String x (d +:+ rest)).
  cbv beta iota. rewrite Hx.
  by rewrite (take_class_run digits_and_dots d rest Hd Hrest).
Qed.

Lemma match_here_score_inv (s : string) (cs : Regex.captures) :
  Regex.match_here validation_score_regex s = Some cs ->
  exists d rest,
    d <> EmptyString
    /\ all_in_class digits_and_dots d = true
    /\ starts_in_class digits_and_dots rest = false
    /\ s = "Best validation score " +:+ d +:+ rest
    /\ cs = [(1, d)].
Proof.
  rewrite match_here_validation_score.
  destruct (strip_prefix "Best validation score " s) as [t|] eqn:Hs; [|done].
  apply strip_prefix_inv in Hs as ->.
  rewrite matches_number_group.
  destruct t as [|x t]; [done|].
  destruct (Regex.in_class x digits_and_dots) eqn:Hx; [|done].
  intros [= <-].
  exists (String x (take_class digits_and_dots t)), (skip_class digits_and_dots t).
  split; [done|]. split.
  { cbn [all_in_class]. by rewrite Hx, take_class_all. }
  split; [apply skip_class_stops|]. split; [|done].
  f_equal.
  change (String x t
          = String x (take_class digits_and_dots t
                      +:+ skip_class digits_and_dots t)).
  by rewrite take_skip_class.
Qed.

Lemma search_score_captures (s : string) (cs : Regex.captures) :
  Regex.search validation_score_regex s = Some cs ->
  exists g, cs = [(1, g)].
Proof.
  induction s as [|x t IH]; cbn [Regex.search].
  - destruct (Regex.match_here validation_score_regex EmptyString) eqn:E; [|done].
    intros [= <-]. apply match_here_score_inv in E as (d & ? & ? & ? & ? & ? & ->).
    by eexists.
  - destruct (Regex.match_here validation_score_regex (String x t)) eqn:E; [|done].
    intros [= <-]. apply match_here_score_inv in E as (d & ? & ? & ? & ? & ? & ->).
    by eexists.
Qed.

(** The search passes over a prefix in which the pattern matches
    nowhere, provided no match can begin in the prefix and run into
    what follows. *)
Lemma search_skips (r : Regex.regex) (tail : string) :
  (forall x p, Regex.match_here r (String x p) = None ->
               Regex.match_here r (String x p +:+ tail) = None) ->
  forall pre,
    Regex.search r pre = None ->
    Regex.search r (pre +:+ tail) = Regex.search r tail.
Proof.
  intros Hlocal pre. induction pre as [|x pre IH]; [done|].
  cbn [Regex.search].
  destruct (Regex.match_here r (String x pre)) eqn:E; [done|].
  intros Hpre.
  change (String x pre +:+ tail) with (String x (pre +:+ tail)).
  cbn [Regex.search].
  change (String x (pre +:+ tail)) with (String x pre +:+ tail).
  rewrite (Hlocal x pre E). by apply IH.
Qed.

Lemma strip_prefix_before (c : ascii) (w p rest : string) :
  lacks c w = true ->
  strip_prefix w (p +:+ String c rest)
  = match strip_prefix w p with
    | Some t => Some (t +:+ String c rest)
    | None => None
    end.
Proof.
  revert p. induction w as [|x w IH]; intros p Hw; [done|].
  cbn [lacks] in Hw. apply andb_true_iff in Hw as [Hx Hw].
  destruct p as [|y p].
  - change (EmptyString +:+ String c rest) with (String c rest).
    cbn [strip_prefix].
    destruct (Ascii.eqb c x) eqn:E; [|done].
    apply Ascii.eqb_eq in E. subst x. by rewrite Ascii.eqb_refl in Hx.
  - change (String y p +:+ String c rest)
      with (String y (p +:+ String c rest)).
    cbn [strip_prefix]. destruct (Ascii.eqb y x); [by apply IH|done].
Qed.

Lemma number_group_before (c : ascii) (p rest : string) :
  Regex.in_class c digits_and_dots = false ->
  Regex.matches number_group p [] found = None ->
  Regex.matches number_group (p +:+ String c rest) [] found = None.
Proof.
  intros Hc. rewrite !matches_number_group.
  destruct p as [|x t].
  - intros _. change (EmptyString +:+ String c rest) with (String c rest).
    cbv beta iota. by rewrite Hc.
  - change (String x t +:+ String c rest)
      with (String x (t +:+ String c rest)).
    cbv beta iota. by destruct (Regex.in_class x digits_and_dots).
Qed.

Lemma match_here_score_before_B (rest : string) (x : ascii) (p : string) :
  Regex.match_here validation_score_regex (String x p) = None ->
  Regex.match_here validation_score_regex (String x p +:+ String "B" rest) = None.
Proof.
  rewrite !match_here_validation_score.
  change (String x p +:+ String "B" rest)
    with (String x (p +:+ String "B" rest)).
  change (strip_prefix "Best validation score " (String x p))
    with (if Ascii.eqb x "B" then strip_prefix "est validation score " p else None).
  change (strip_prefix "Best validation score " (String x (p +:+ String "B" rest)))
    with (if Ascii.eqb x "B"
          then strip_prefix "est validation score " (p +:+ String "B" rest)
          else None).
  destruct (Ascii.eqb x "B"); [|done].
  rewrite strip_prefix_before by reflexivity.
  destruct (strip_prefix "est validation score " p) as [t|]; [|done].
  by apply number_group_before.
Qed.

Lemma extract_accuracy_unfold (line : string) :
  Regex.extract "Test Accuracy ([0-9\.]+)%" line
  = match Regex.search test_accuracy_regex line with
    | Some cs => Regex.group 1 cs
    | None => None
    end.
Proof. unfold Regex.extract. by rewrite compile_test_accuracy. Qed.

Lemma extract_score_unfold (line : string) :
  Regex.extract "Best validation score ([0-9\.]+)" line
  = match Regex.search validation_score_regex line with
    | Some cs => Regex.group 1 cs
    | None => None
    end.
Proof. unfold Regex.extract. by rewrite compile_validation_score. Qed.

Lemma search_at_match (r : Regex.regex) (s : string) (cs : Regex.captures) :
  Regex.match_here r s = Some cs -> Regex.search r s = Some cs.
Proof. intros H. destruct s; cbn [Regex.search]; by rewrite H. Qed.

Lemma string_app_assoc (a b c : string) : (a +:+ b) +:+ c = a +:+ (b +:+ c).
Proof.
  induction a as [|x a IH]; [reflexivity|].
  change ((String x a +:+ b) +:+ c) with (String x ((a +:+ b) +:+ c)).
  change (String x a +:+ (b +:+ c)) with (String x (a +:+ (b +:+ c))).
  by rewrite IH.
Qed.

Lemma search_inv (r : Regex.regex) (s : string) (cs : Regex.captures) :
  Regex.search r s = Some cs ->
  exists pre suf, s = pre +:+ suf /\ Regex.match_here r suf = Some cs.
Proof.
  induction s as [|x t IH]; cbn [Regex.search].
  - destruct (Regex.match_here r EmptyString) eqn:E; [|done].
    intros [= <-]. by exists EmptyString, EmptyString.
  - destruct (Regex.match_here r (String x t)) eqn:E.
    + intros [= <-]. by exists EmptyString, (String x t).
    + intros H. destruct (IH H) as (pre & suf & -> & Hm).
      by exists (String x pre), suf.
Qed.

Lemma extracted_accuracy_occurs (line g : string) :
  Regex.extract "Test Accuracy ([0-9\.]+)%" line = Some g ->
  g <> EmptyString
  /\ all_in_class digits_and_dots g = true
  /\ exists pre post, line = pre +:+ g +:+ post.
Proof.
  rewrite extract_accuracy_unfold.
  destruct (Regex.search test_accuracy_regex line) as [cs|] eqn:Hs; [|done].
  apply search_inv in Hs as (pre & suf & -> & Hm).
  apply match_here_accuracy_inv in Hm as (d & post & Hne & Hd & -> & ->).
  intros [= <-].
  split; [done|]. split; [done|].
  exists (pre +:+ "Test Accuracy "), ("%" +:+ post).
  by rewrite !string_app_assoc.
Qed.

Lemma extracted_score_occurs (line g : string) :
  Regex.extract "Best validation score ([0-9\.]+)" line = Some g ->
  g <> EmptyString
  /\ all_in_class digits_and_dots g = true
  /\ exists pre post, line = pre +:+ g +:+ post.
Proof.
  rewrite extract_score_unfold.
  destruct (Regex.search validation_score_regex line) as [cs|] eqn:Hs; [|done].
  apply search_inv in Hs as (pre & suf & -> & Hm).
  apply match_here_score_inv in Hm as (d & rest & Hne & Hd & _ & -> & ->).
  intros [= <-].
  split; [done|]. split; [done|].
  exists (pre +:+ "Best validation score "), rest.
  by rewrite !string_app_assoc.
Qed.

(** X10. On a line that has [Test Accuracy ], a non-empty run of digits
    and dots and a percent sign, the accuracy pattern extracts the
    whole run, whatever follows, provided it does not already match
    in the part of the line before that text. *)
Theorem accuracy_extracted_in_full (pre d post : string) :
  d <> EmptyString ->
  all_in_class digits_and_dots d = true ->
  Regex.extract "Test Accuracy ([0-9\.]+)%" pre = None ->
  Regex.extract "Test Accuracy ([0-9\.]+)%"
    (pre +:+ "Test Accuracy " +:+ d +:+ "%" +:+ post)
  = Some d.
Proof.
  intros Hne Hd. rewrite !extract_accuracy_unfold.
  destruct (Regex.search test_accuracy_regex pre) as [cs|] eqn:Hpre.
  { destruct (search_captures _ _ Hpre) as [g ->]. discriminate. }
  intros _.
  change ("Test Accuracy " +:+ d +:+ "%" +:+ post)
    with (String "T" ("est Accuracy " +:+ d +:+ "%" +:+ post)).
  rewrite (search_before_T pre _ Hpre).
  change (String "T" ("est Accuracy " +:+ d +:+ "%" +:+ post))
    with ("Test Accuracy " +:+ d +:+ "%" +:+ post).
  by rewrite (search_at_match _ _ _ (match_here_accuracy_run d post Hne Hd)).
Qed.

Lemma accuracy_extracted_in_full_witness :
  Regex.extract "Test Accuracy ([0-9\.]+)%"
    ("epoch 3: " +:+ "Test Accuracy " +:+ "77.1" +:+ "%" +:+ " done")
  = Some "77.1".
Proof.
  apply (accuracy_extracted_in_full "epoch 3: " "77.1" " done").
  - discriminate.
  - reflexivity.
  - vm_compute. reflexivity.
Defined.

(** X11. Whatever the accuracy pattern extracts from a line is a
    non-empty run of digits and dots that stands in the line between
    [Test Accuracy ] and a percent sign. *)
Theorem extracted_accuracy_is_matched (line g : string) :
  Regex.extract "Test Accuracy ([0-9\.]+)%" line = Some g ->
  exists pre post,
    g <> EmptyString
    /\ all_in_class digits_and_dots g = true
    /\ line = pre +:+ "Test Accuracy " +:+ g +:+ "%" +:+ post.
Proof.
  rewrite extract_accuracy_unfold.
  destruct (Regex.search test_accuracy_regex line) as [cs|] eqn:Hs; [|done].
  apply search_inv in Hs as (pre & suf & -> & Hm).
  apply match_here_accuracy_inv in Hm as (d & rest & Hne & Hd & -> & ->).
  intros [= <-]. by exists pre, rest.
Qed.

Lemma extracted_accuracy_is_matched_witness :
  exists pre post,
    all_in_class digits_and_dots "77.1" = true
    /\ "epoch 3: Test Accuracy 77.1% done"
       = pre +:+ "Test Accuracy " +:+ "77.1" +:+ "%" +:+ post.
Proof.
  destruct (extracted_accuracy_is_matched
              "epoch 3: Test Accuracy 77.1% done" "77.1")
    as (pre & post & _ & Hd & Hline); [vm_compute; reflexivity|].
  exists pre, post. split; [exact Hd | exact Hline].
Defined.

(** What is extracted need not be a number. *)
Example accuracy_pattern_takes_dots :
  Regex.extract "Test Accuracy ([0-9\.]+)%" "Test Accuracy 1..2.%" = Some "1..2.".
Proof. vm_compute. reflexivity. Qed.

(** X12. On a line that has [Best validation score ] and a non-empty
    run of digits and dots that ends there, the score pattern of the
    tox21 tuning notebook extracts the whole run, provided it does not
    already match in the part of the line before that text. *)
Theorem validation_score_extracted_in_full (pre d rest : string) :
  d <> EmptyString ->
  all_in_class digits_and_dots d = true ->
  starts_in_class digits_and_dots rest = false ->
  Regex.extract "Best validation score ([0-9\.]+)" pre = None ->
  Regex.extract "Best validation score ([0-9\.]+)"
    (pre +:+ "Best validation score " +:+ d +:+ rest)
  = Some d.
Proof.
  intros Hne Hd Hrest. rewrite !extract_score_unfold.
  destruct (Regex.search validation_score_regex pre) as [cs|] eqn:Hpre.
  { destruct (search_score_captures _ _ Hpre) as [g ->]. discriminate. }
  intros _.
  change ("Best validation score " +:+ d +:+ rest)
    with (String "B" ("est validation score " +:+ d +:+ rest)).
  rewrite (search_skips validation_score_regex _
             (match_here_score_before_B _) pre Hpre).
  change (String "B" ("est validation score " +:+ d +:+ rest))
    with ("Best validation score " +:+ d +:+ rest).
  by rewrite (search_at_match _ _ _ (match_here_score_run d rest Hne Hd Hrest)).
Qed.

Lemma validation_score_extracted_in_full_witness :
  Regex.extract "Best validation score ([0-9\.]+)"
    ("epoch 12, " +:+ "Best validation score " +:+ "0.8431" +:+ " so far")
  = Some "0.8431".
Proof.
  apply (validation_score_extracted_in_full "epoch 12, " "0.8431" " so far").
  - discriminate.
  - reflexivity.
  - reflexivity.
  - vm_compute. reflexivity.
Defined.

(** X13. Whatever the score pattern extracts from a line is a
    non-empty run of digits and dots that stands in the line right
    after [Best validation score ] and is not followed by a further
    digit or dot. *)
Theorem extracted_score_is_matched (line g : string) :
  Regex.extract "Best validation score ([0-9\.]+)" line = Some g ->
  exists pre rest,
    g <> EmptyString
    /\ all_in_class digits_and_dots g = true
    /\ starts_in_class digits_and_dots rest = false
    /\ line = pre +:+ "Best validation score " +:+ g +:+ rest.
Proof.
  rewrite extract_score_unfold.
  destruct (Regex.search validation_score_regex line) as [cs|] eqn:Hs; [|done].
  apply search_inv in Hs as (pre & suf & -> & Hm).
  apply match_here_score_inv in Hm as (d & rest & Hne & Hd & Hrest & -> & ->).
  intros [= <-]. by exists pre, rest.
Qed.

Lemma extracted_score_is_matched_witness :
  exists pre rest,
    starts_in_class digits_and_dots rest = false
    /\ "Best validation score 0.8431 at epoch 12"
       = pre +:+ "Best validation score " +:+ "0.8431" +:+ rest.
Proof.
  destruct (extracted_score_is_matched
              "Best validation score 0.8431 at epoch 12" "0.8431")
    as (pre & rest & _ & _ & Hrest & Hline); [vm_compute; reflexivity|].
  exists pre, rest. split; [exact Hrest | exact Hline].
Defined.

(** X14. Every tuner is constructed with exactly one metric
    definition, named as the objective of the tuner; its pattern is
    well formed, and what it extracts from a line is a non-empty run
    of digits and dots of that line. *)
Theorem objective_metric_is_defined {W} (sdk : Client W) (w : W)
    (nb : notebook) (t : TuningConfiguration) (rg : pydict)
    (o : option direction) :
  In (t, rg, o) (tuners (journal (run sdk nb w).2)) ->
  exists d r,
    metric_definitions t = [d]
    /\ Name d = objective_metric_name t
    /\ Regex.compile (Regex d) = Some r
    /\ forall line g,
         Regex.extract (Regex d) line = Some g ->
         g <> EmptyString
         /\ all_in_class digits_and_dots g = true
         /\ exists pre post, line = pre +:+ g +:+ post.
Proof.
  destruct nb.
  all: run_notebook sdk; observe_more; intros Hin; in_cases Hin.
  all: injection Hin as <- <- <-.
  all: eexists; eexists; split; [reflexivity|]; split; [reflexivity|].
  all: split;
    [ first [ apply compile_test_accuracy | apply compile_validation_score ]
    | first [ apply extracted_accuracy_occurs | apply extracted_score_occurs ] ].
Qed.

Lemma objective_metric_is_defined_witness :
  exists t rg o d,
    In (t, rg, o) (tuners (journal (run obliging pytorch_gcn_hypertune 0).2))
    /\ metric_definitions t = [d]
    /\ Name d = objective_metric_name t.
Proof.
  assert (H : exists x,
            In x (tuners (journal (run obliging pytorch_gcn_hypertune 0).2))).
  { run_concrete. eexists. left. reflexivity. }
  destruct H as [[[t rg] o] H].
  destruct (objective_metric_is_defined obliging 0 pytorch_gcn_hypertune t rg o H)
    as (d & r & Hd & Hn & _).
  exists t, rg, o, d. split; [exact H|]. split; [exact Hd | exact Hn].
Defined.

(** ** The image-building cells *)

Lemma fields_from_blank_free (s cur : string) :
  Shell.blank_free s = true ->
  Shell.fields_from cur s
  = match cur +:+ s with EmptyString => [] | x => [x] end.
Proof.
  revert cur; induction s as [|c t IH]; intros cur H.
  - rewrite append_empty_r. by destruct cur.
  - cbn [Shell.blank_free] in H. apply andb_prop in H as [Hc Ht].
    cbn [Shell.fields_from]. apply negb_true_iff in Hc. rewrite Hc.
    rewrite (IH _ Ht), string_app_assoc. reflexivity.
Qed.

Lemma fields_blank_free (s : string) :
  Shell.blank_free s = true -> s <> EmptyString -> Shell.fields s = [s].
Proof.
  intros H Hs. unfold Shell.fields. rewrite (fields_from_blank_free _ _ H).
  change (EmptyString +:+ s) with s. by destruct s.
Qed.

Lemma blank_free_app (a b : string) :
  Shell.blank_free (a +:+ b) = Shell.blank_free a && Shell.blank_free b.
Proof.
  induction a as [|x a IH]; [reflexivity|].
  change (String x a +:+ b) with (String x (a +:+ b)).
  cbn [Shell.blank_free]. by rewrite IH, andb_assoc.
Qed.

Lemma glob_free_app (a b : string) :
  Shell.glob_free (a +:+ b) = Shell.glob_free a && Shell.glob_free b.
Proof.
  induction a as [|x a IH]; [reflexivity|].
  change (String x a +:+ b) with (String x (a +:+ b)).
  cbn [Shell.glob_free]. by rewrite IH, andb_assoc.
Qed.

Lemma app_not_empty_r (a b : string) : b <> EmptyString -> a +:+ b <> EmptyString.
Proof. destruct a; [done|]. intros _. discriminate. Qed.

(** A value without blanks and without pattern characters is one word,
    whatever the files are. *)
Lemma expand_plain {W} (pathnames : string -> W -> list string) (w : W)
    (v : string) :
  Shell.blank_free v = true -> Shell.glob_free v = true -> v <> EmptyString ->
  Shell.expand pathnames w v = [v].
Proof.
  intros Hb Hg Hv. unfold Shell.expand. rewrite (fields_blank_free v Hb Hv).
  cbn [flat_map]. rewrite Hg. reflexivity.
Qed.

Lemma expand_literal {W} (pathnames : string -> W -> list string) (w : W)
    (c : ascii) (s : string) :
  Shell.blank_free (String c s) = true -> Shell.glob_free (String c s) = true ->
  Shell.expand pathnames w (String c s) = [String c s].
Proof. intros Hb Hg. by apply expand_plain. Qed.

Lemma flat_map_glob_free {W} (pathnames : string -> W -> list string) (w : W)
    (words : list string) :
  forallb Shell.glob_free words = true ->
  flat_map (fun f => if Shell.glob_free f then [f] else pathnames f w) words
  = words.
Proof.
  induction words as [|x l IH]; [done|].
  cbn [forallb flat_map]. intros H. apply andb_prop in H as [Hx Hl].
  rewrite Hx, (IH Hl). reflexivity.
Qed.

(** What the shell runs for the output of an orderly [get-login]. *)
Lemma login_words {W} (pathnames : string -> W -> list string) (w : W)
    (output : string) :
  Shell.login_command output ->
  Shell.expand pathnames w (Shell.capture output) = []
  \/ exists rest,
       Shell.expand pathnames w (Shell.capture output)
       = "docker" :: "login" :: rest.
Proof.
  unfold Shell.login_command, Shell.expand.
  destruct (Shell.fields (Shell.capture output)) as [|a l]; [by left|].
  intros [Hs Hg]. right. rewrite (flat_map_glob_free _ _ _ Hg).
  cbn [Shell.starts_with] in Hs.
  apply andb_prop in Hs as [Ha Hs]. apply String.eqb_eq in Ha as <-.
  destruct l as [|b rest]; [discriminate Hs|].
  apply andb_prop in Hs as [Hb _]. apply String.eqb_eq in Hb as <-.
  by exists rest.
Qed.

Lemma fields_image_reference (a r n t : string) :
  Shell.blank_free a = true -> Shell.blank_free r = true ->
  Shell.blank_free n = true -> Shell.blank_free t = true ->
  Shell.blank_free (image_reference a r n t) = true.
Proof.
  intros Ha Hr Hn Ht.
  unfold image_reference. rewrite !blank_free_app, Ha, Hr, Hn, Ht. reflexivity.
Qed.

Lemma glob_free_image_reference (a r n t : string) :
  Shell.glob_free a = true -> Shell.glob_free r = true ->
  Shell.glob_free n = true -> Shell.glob_free t = true ->
  Shell.glob_free (image_reference a r n t) = true.
Proof.
  intros Ha Hr Hn Ht.
  unfold image_reference. rewrite !glob_free_app, Ha, Hr, Hn, Ht. reflexivity.
Qed.

Lemma expand_image_reference {W} (pathnames : string -> W -> list string)
    (w : W) (a r n t : string) :
  Shell.blank_free a && Shell.glob_free a = true ->
  Shell.blank_free r && Shell.glob_free r = true ->
  Shell.blank_free n && Shell.glob_free n = true ->
  Shell.blank_free t && Shell.glob_free t = true ->
  Shell.expand pathnames w (image_reference a r n t) = [image_reference a r n t].
Proof.
  intros [Ha Ha']%andb_prop [Hr Hr']%andb_prop [Hn Hn']%andb_prop
    [Ht Ht']%andb_prop.
  apply expand_plain.
  - by apply fields_image_reference.
  - by apply glob_free_image_reference.
  - unfold image_reference. apply app_not_empty_r. discriminate.
Qed.

(** The test machine is orderly. *)
Lemma workstation_orderly : Shell.orderly Shell.workstation.
Proof.
  split; [|split; [reflexivity|split; [reflexivity|]]].
  - intros name Hin. cbn [In] in Hin.
    destruct Hin as [<-|[<-|[<-|[<-|[]]]]]; reflexivity.
  - intros argv w. cbn [Shell.workstation Shell.runner fst].
    destruct (Shell.starts_with Shell.get_login argv) eqn:E.
    { eexists _, _. split; [reflexivity|]. intros _. vm_compute. by split. }
    repeat match goal with
           | |- context [if ?b then _ else _] => destruct b
           end.
    all: eexists _, _; split; [reflexivity|]; intros H; discriminate H.
Qed.

(** Symbolic execution of a cell on an arbitrary orderly machine. *)
Ltac sh_unfold :=
  cbv beta iota zeta delta
    [mbind mret Shell.SM_bind Shell.SM_ret Shell.param Shell.param_or
     Shell.unquoted Shell.assign Shell.store Shell.start Shell.simple_command
     Shell.assign_output Shell.run_words Shell.run_output Shell.echo
     Shell.if_failed Shell.set_fullname Shell.ensure_repository
     Shell.tag_and_push Shell.kge_build Shell.gcmc_build Shell.tox21_build
     Shell.script_of Shell.exec Shell.vars Shell.inherited Shell.made
     Shell.assigned Shell.status Shell.outside
     Shell.trace Shell.is_regular Shell.is_special existsb Shell.to_null_device
     Shell.runner Shell.own Shell.pathnames Shell.null_device
     Shell.default_options
     String.eqb Ascii.eqb Bool.eqb andb orb negb from_option id fst snd app].

Ltac sh_step rn ow pn nd Hrun Hown Hnd :=
  first
    [ match goal with
      | |- context [rn ?a ?w] =>
          let o := fresh "o" in
          let c := fresh "c" in
          let E := fresh "E" in
          let L := fresh "L" in
          let b := fresh "b" in
          destruct (Hrun a w) as (o & c & E & L);
          destruct (rn a w) as [b ?]; cbn [fst] in E; subst b;
          first [ specialize (L eq_refl) | clear L ]
      end
    | match goal with
      | |- context [nd ?w] => rewrite (Hnd w)
      end
    | match goal with
      | L : Shell.login_command ?o
        |- context [Shell.expand ?p ?w (Shell.capture ?o)] =>
          let E := fresh "E" in
          let rest := fresh "rest" in
          destruct (login_words p w o L) as [E|[rest E]]; rewrite E; clear E L
      end
    | match goal with
      | |- context [ow "docker"] => rewrite (Hown "docker") by (cbn [In]; tauto)
      end
    | match goal with
      | |- context [Shell.expand ?p ?w (String ?c ?s)] =>
          rewrite (expand_literal p w c s eq_refl eq_refl)
      end
    | match goal with
      | |- context [match ?c with O => _ | S _ => _ end] => is_var c; destruct c
      end
    | match goal with
      | |- context [match Shell.capture ?s with EmptyString => _ | String _ _ => _ end] =>
          destruct (Shell.capture s) eqn:?
      end ];
  cbv beta iota.

Ltac sh_observe :=
  cbv beta iota zeta delta
    [Shell.invoked Shell.line Shell.from_output Shell.argv Shell.out Shell.code
     Shell.redirected Shell.trace Shell.status Shell.starts_with
     Shell.get_login Shell.get_account Shell.get_region
     Shell.region_used Shell.notebook_of Shell.dockerfile docker_name docker_tag
     String.eqb Ascii.eqb Bool.eqb
     omap list_omap map app andb negb last hd_error head].

Ltac run_cell m Hord :=
  let rn := fresh "rn" in
  let ow := fresh "ow" in
  let pn := fresh "pn" in
  let nd := fresh "nd" in
  let dopt := fresh "dopt" in
  let Hown := fresh "Hown" in
  let Hopt := fresh "Hopt" in
  let Hnd := fresh "Hnd" in
  let Hrun := fresh "Hrun" in
  let res := fresh "res" in
  let Hres := fresh "Hres" in
  destruct m as [rn ow pn nd dopt];
  destruct Hord as (Hown & Hopt & Hnd & Hrun);
  cbn [Shell.runner Shell.own Shell.pathnames Shell.null_device
       Shell.default_options] in Hown, Hopt, Hnd, Hrun |- *;
  subst dopt;
  match goal with
  | |- context [Shell.exec ?mm ?s ?v ?w] =>
      remember (Shell.exec mm s v w) as res eqn:Hres
  end;
  revert Hres; sh_unfold;
  rewrite ?(Hown "aws"), ?(Hown "docker"), ?(Hown "echo"), ?(Hown "[")
    by (cbn [In]; tauto);
  cbv beta iota;
  repeat sh_step rn ow pn nd Hrun Hown Hnd;
  intros ->.

Ltac sh_close :=
  first
    [ reflexivity
    | sh_observe;
      repeat match goal with
             | H : Shell.capture _ = _ |- _ => rewrite !H; clear H
             end;
      reflexivity ].

(** What a run of a cell on an orderly machine consists of. *)
Lemma cell_run {W} (m : Shell.Machine W) (vars0 : Shell.env) (w : W)
    (c : Shell.cell) :
  Shell.orderly m ->
  exists st b acct reg d t p wt wp,
    Shell.exec m (Shell.script_of m c) vars0 w = Some st
    /\ Shell.invoked ["docker"; "build"] (Shell.trace st) = [b]
    /\ Shell.argv b = ["docker"; "build"; "-t"; docker_name (Shell.notebook_of c);
                       "-f"; Shell.dockerfile c; "."]
    /\ Shell.invoked Shell.get_account (Shell.trace st) = [acct]
    /\ Shell.invoked Shell.get_region (Shell.trace st) = [reg]
    /\ Shell.invoked ["aws"; "ecr"; "describe-repositories"] (Shell.trace st) = [d]
    /\ Shell.argv d = ["aws"; "ecr"; "describe-repositories"; "--repository-names";
                       docker_name (Shell.notebook_of c)]
    /\ Shell.redirected d = Shell.AllDiscarded
    /\ map Shell.argv
         (Shell.invoked ["aws"; "ecr"; "create-repository"] (Shell.trace st))
       = match Shell.code d with
         | O => []
         | S _ => [["aws"; "ecr"; "create-repository"; "--repository-name";
                    docker_name (Shell.notebook_of c)]]
         end
    /\ map Shell.redirected
         (Shell.invoked ["aws"; "ecr"; "create-repository"] (Shell.trace st))
       = match Shell.code d with
         | O => []
         | S _ => [Shell.StdoutDiscarded]
         end
    /\ Shell.invoked ["docker"; "tag"] (Shell.trace st) = [t]
    /\ Shell.invoked ["docker"; "push"] (Shell.trace st) = [p]
    /\ Shell.argv t
       = ["docker"; "tag"; docker_name (Shell.notebook_of c)]
           ++ Shell.expand (Shell.pathnames m) wt
                (image_reference (Shell.capture (Shell.out acct))
                   (Shell.region_used c (Shell.capture (Shell.out reg)))
                   (docker_name (Shell.notebook_of c)) "latest")
    /\ Shell.argv p
       = ["docker"; "push"]
           ++ Shell.expand (Shell.pathnames m) wp
                (image_reference (Shell.capture (Shell.out acct))
                   (Shell.region_used c (Shell.capture (Shell.out reg)))
                   (docker_name (Shell.notebook_of c)) "latest")
    /\ last (Shell.trace st) = Some (Shell.Ran p)
    /\ Shell.status st = Shell.code p.
Proof.
  intros Hord.
  destruct c.
  all: run_cell m Hord.
  all: do 9 eexists; split; [reflexivity|]; sh_observe.
  all: repeat split; sh_close.
Qed.

(** The image name of the estimators of the three notebooks with a
    cell. *)
Lemma created_image_of_cell {W} (sdk : Client W) (w : W) (c : Shell.cell)
    (e : JobConfiguration) (hp : pydict) :
  In (e, hp) (created (journal (run sdk (Shell.notebook_of c) w).2)) ->
  exists a r,
    accounts (journal (run sdk (Shell.notebook_of c) w).2) = [a]
    /\ regions (journal (run sdk (Shell.notebook_of c) w).2) = [r]
    /\ image_name e = image_reference a r (docker_name (Shell.notebook_of c)) "latest".
Proof.
  destruct c; cbv beta iota delta [Shell.notebook_of].
  all: run_notebook sdk; observe; intros Hin; in_cases Hin.
  all: injection Hin as <- <-; do 2 eexists; repeat split; reflexivity.
Qed.

(** X15. On an orderly machine a cell never stops early: whatever the
    programs print and return, it stays within the model, [docker
    build] is run once, with the image name and the Dockerfile of the
    cell, [docker push] is run once, it is the last program the cell
    runs, and the exit status of the cell is that of the push.  The
    programs run for the output of a login are counted too. *)
Theorem cell_status_is_push_status {W} (m : Shell.Machine W)
    (vars0 : Shell.env) (w : W) (c : Shell.cell) :
  Shell.orderly m ->
  exists st b p,
    Shell.exec m (Shell.script_of m c) vars0 w = Some st
    /\ Shell.invoked ["docker"; "build"] (Shell.trace st) = [b]
    /\ Shell.argv b = ["docker"; "build"; "-t"; docker_name (Shell.notebook_of c);
                       "-f"; Shell.dockerfile c; "."]
    /\ Shell.invoked ["docker"; "push"] (Shell.trace st) = [p]
    /\ last (Shell.trace st) = Some (Shell.Ran p)
    /\ Shell.status st = Shell.code p.
Proof.
  intros Hord.
  destruct (cell_run m vars0 w c Hord)
    as (st & b & acct & reg & d & t & p & wt & wp & Hst & Hb & Hab & _ & _ & _
        & _ & _ & _ & _ & _ & Hp & _ & _ & Hlast & Hstatus).
  exists st, b, p. done.
Qed.

Lemma cell_status_is_push_status_witness :
  exists st b p,
    Shell.exec Shell.workstation
      (Shell.script_of Shell.workstation Shell.tox21_cell) (fun _ => None) 0
    = Some st
    /\ Shell.invoked ["docker"; "build"] (Shell.trace st) = [b]
    /\ Shell.argv b = ["docker"; "build"; "-t";
                       docker_name (Shell.notebook_of Shell.tox21_cell);
                       "-f"; Shell.dockerfile Shell.tox21_cell; "."]
    /\ Shell.invoked ["docker"; "push"] (Shell.trace st) = [p]
    /\ last (Shell.trace st) = Some (Shell.Ran p)
    /\ Shell.status st = Shell.code p.
Proof.
  exact (cell_status_is_push_status Shell.workstation (fun _ => None) 0
           Shell.tox21_cell workstation_orderly).
Defined.

(** X16. On an orderly machine the repository is looked up once, by the
    name of the image and with all output discarded, and
    [create-repository] is run, once and for the same name, exactly
    when the lookup fails; nothing else in the cell runs either
    command. *)
Theorem repository_created_when_lookup_fails {W} (m : Shell.Machine W)
    (vars0 : Shell.env) (w : W) (c : Shell.cell) :
  Shell.orderly m ->
  exists st d,
    Shell.exec m (Shell.script_of m c) vars0 w = Some st
    /\ Shell.invoked ["aws"; "ecr"; "describe-repositories"] (Shell.trace st) = [d]
    /\ Shell.argv d = ["aws"; "ecr"; "describe-repositories"; "--repository-names";
                       docker_name (Shell.notebook_of c)]
    /\ Shell.redirected d = Shell.AllDiscarded
    /\ map Shell.argv
         (Shell.invoked ["aws"; "ecr"; "create-repository"] (Shell.trace st))
       = match Shell.code d with
         | O => []
         | S _ => [["aws"; "ecr"; "create-repository"; "--repository-name";
                    docker_name (Shell.notebook_of c)]]
         end
    /\ map Shell.redirected
         (Shell.invoked ["aws"; "ecr"; "create-repository"] (Shell.trace st))
       = match Shell.code d with
         | O => []
         | S _ => [Shell.StdoutDiscarded]
         end.
Proof.
  intros Hord.
  destruct (cell_run m vars0 w c Hord)
    as (st & b & acct & reg & d & t & p & wt & wp & Hst & _ & _ & _ & _ & Hd
        & Had & Hrd & Hc & Hrc & _).
  exists st, d. done.
Qed.

Lemma repository_created_when_lookup_fails_witness :
  exists st d,
    Shell.exec Shell.workstation
      (Shell.script_of Shell.workstation Shell.gcmc_cell) (fun _ => None) 0
    = Some st
    /\ Shell.invoked ["aws"; "ecr"; "describe-repositories"] (Shell.trace st) = [d]
    /\ Shell.argv d = ["aws"; "ecr"; "describe-repositories"; "--repository-names";
                       docker_name (Shell.notebook_of Shell.gcmc_cell)]
    /\ Shell.redirected d = Shell.AllDiscarded
    /\ map Shell.argv
         (Shell.invoked ["aws"; "ecr"; "create-repository"] (Shell.trace st))
       = match Shell.code d with
         | O => []
         | S _ => [["aws"; "ecr"; "create-repository"; "--repository-name";
                    docker_name (Shell.notebook_of Shell.gcmc_cell)]]
         end
    /\ map Shell.redirected
         (Shell.invoked ["aws"; "ecr"; "create-repository"] (Shell.trace st))
       = match Shell.code d with
         | O => []
         | S _ => [Shell.StdoutDiscarded]
         end.
Proof.
  exact (repository_created_when_lookup_fails Shell.workstation (fun _ => None) 0
           Shell.gcmc_cell workstation_orderly).
Defined.

(** X17. On an orderly machine the first program the KGE cell runs is
    [aws ecr get-login], and the words it gets after [--region] are
    what the shell makes of the variable [region] as the cell inherits
    it, in the world the cell starts in: the cell reads the configured
    region only later.  With [region] unset, [--region] is followed
    directly by [--registry-ids]. *)
Theorem first_login_region {W} (m : Shell.Machine W) (vars0 : Shell.env)
    (w : W) :
  Shell.orderly m ->
  exists st l,
    Shell.exec m (Shell.kge_build m) vars0 w = Some st
    /\ head (Shell.trace st) = Some (Shell.Ran l)
    /\ Shell.argv l
       = ["aws"; "ecr"; "get-login"; "--no-include-email"; "--region"]
           ++ Shell.expand (Shell.pathnames m) w
                (default EmptyString (vars0 "region"))
           ++ ["--registry-ids"; "763104351884"]
    /\ (vars0 "region" = None ->
        Shell.argv l
        = ["aws"; "ecr"; "get-login"; "--no-include-email"; "--region";
           "--registry-ids"; "763104351884"]).
Proof.
  intros Hord.
  run_cell m Hord.
  all: do 2 eexists; split; [reflexivity|]; sh_observe.
  all: split; [reflexivity|]; split; [reflexivity|].
  all: intros ->; reflexivity.
Qed.

Lemma first_login_region_witness :
  exists st l,
    Shell.exec Shell.workstation (Shell.kge_build Shell.workstation)
      (fun _ => None) 0
    = Some st
    /\ head (Shell.trace st) = Some (Shell.Ran l)
    /\ Shell.argv l
       = ["aws"; "ecr"; "get-login"; "--no-include-email"; "--region";
          "--registry-ids"; "763104351884"].
Proof.
  destruct (first_login_region Shell.workstation (fun _ => None) 0
              workstation_orderly) as (st & l & Hst & Hl & _ & Hnone).
  exists st, l. split; [exact Hst|]. split; [exact Hl|]. exact (Hnone eq_refl).
Defined.

(** X18. On an orderly machine, when the account and the region that
    [aws] prints have no blanks and no pattern characters, the image is
    tagged once and pushed once, under one word: account, region and
    image name put together as the estimator cell does, with the tag
    [latest].  In the tox21 cell the region is [us-east-2] when none
    is configured. *)
Theorem image_pushed_under_one_name {W} (m : Shell.Machine W)
    (vars0 : Shell.env) (w : W) (c : Shell.cell) (acct reg : Shell.invocation) :
  let tr := Shell.events (Shell.exec m (Shell.script_of m c) vars0 w) in
  let a := Shell.capture (Shell.out acct) in
  let r := Shell.region_used c (Shell.capture (Shell.out reg)) in
  let name := image_reference a r (docker_name (Shell.notebook_of c)) "latest" in
  Shell.orderly m ->
  Shell.invoked Shell.get_account tr = [acct] ->
  Shell.invoked Shell.get_region tr = [reg] ->
  Shell.plain a = true ->
  Shell.plain r = true ->
  exists t p,
    Shell.invoked ["docker"; "tag"] tr = [t]
    /\ Shell.invoked ["docker"; "push"] tr = [p]
    /\ Shell.argv t = ["docker"; "tag"; docker_name (Shell.notebook_of c); name]
    /\ Shell.argv p = ["docker"; "push"; name].
Proof.
  intros tr a r name Hord Hacct Hreg Ha Hr.
  destruct (cell_run m vars0 w c Hord)
    as (st & b & acct' & reg' & d & t & p & wt & wp & Hst & _ & _ & Hacct'
        & Hreg' & _ & _ & _ & _ & _ & Ht & Hp & Hat & Hap & _).
  subst tr. rewrite Hst in Hacct, Hreg |- *. cbn [Shell.events] in *.
  rewrite Hacct in Hacct'. injection Hacct' as <-.
  rewrite Hreg in Hreg'. injection Hreg' as <-.
  fold a r name in Hat, Hap.
  assert (Hn : forall w', Shell.expand (Shell.pathnames m) w' name = [name]).
  { intros w'. apply expand_image_reference; try done. all: by destruct c. }
  rewrite Hn in Hat, Hap.
  exists t, p. done.
Qed.

Lemma image_pushed_under_one_name_witness :
  exists t p,
    Shell.invoked ["docker"; "tag"]
      (Shell.events
         (Shell.exec Shell.workstation
            (Shell.script_of Shell.workstation Shell.kge_cell) (fun _ => None) 0))
    = [t]
    /\ Shell.invoked ["docker"; "push"]
         (Shell.events
            (Shell.exec Shell.workstation
               (Shell.script_of Shell.workstation Shell.kge_cell)
               (fun _ => None) 0))
       = [p]
    /\ Shell.argv p
       = ["docker"; "push";
          "123456789012.dkr.ecr.us-east-2.amazonaws.com/sagemaker-dgl-kge-mxnet:latest"].
Proof.
  unshelve epose proof
          (image_pushed_under_one_name Shell.workstation (fun _ => None) 0
             Shell.kge_cell
             {| Shell.line := 68; Shell.from_output := false;
                Shell.argv := ["aws"; "sts"; "get-caller-identity"; "--query";
                               "Account"; "--output"; "text"];
                Shell.redirected := Shell.Shown;
                Shell.out := "123456789012" +:+ String Shell.linefeed EmptyString;
                Shell.code := 0 |}
             {| Shell.line := 70; Shell.from_output := false;
                Shell.argv := ["aws"; "configure"; "get"; "region"];
                Shell.redirected := Shell.Shown;
                Shell.out := "us-east-2" +:+ String Shell.linefeed EmptyString;
                Shell.code := 0 |} workstation_orderly _ _ _ _)
    as (t & p & Ht & Hp & _ & Hap); [vm_compute; reflexivity ..|].
  exists t, p. split; [exact Ht|]. split; [exact Hp | exact Hap].
Defined.

(** X19. The cell and the estimator agree: on an orderly machine, when
    [aws] prints in the cell the account and the region that the
    session reports in the run, and they have no blanks and no pattern
    characters, the image every estimator of the notebook is
    constructed with is the image the cell pushed. *)
Theorem estimator_names_the_pushed_image {W V} (sdk : Client W) (w : W)
    (m : Shell.Machine V) (vars0 : Shell.env) (v : V) (c : Shell.cell)
    (e : JobConfiguration) (hp : pydict) (acct reg : Shell.invocation) :
  let j := journal (run sdk (Shell.notebook_of c) w).2 in
  let tr := Shell.events (Shell.exec m (Shell.script_of m c) vars0 v) in
  let a := Shell.capture (Shell.out acct) in
  let r := Shell.region_used c (Shell.capture (Shell.out reg)) in
  Shell.orderly m ->
  In (e, hp) (created j) ->
  Shell.invoked Shell.get_account tr = [acct] ->
  Shell.invoked Shell.get_region tr = [reg] ->
  accounts j = [a] ->
  regions j = [r] ->
  Shell.plain a = true ->
  Shell.plain r = true ->
  exists p,
    Shell.invoked ["docker"; "push"] tr = [p]
    /\ Shell.argv p = ["docker"; "push"; image_name e].
Proof.
  intros j tr a r Hord Hin Hacct Hreg Haj Hrj Ha Hr.
  destruct (created_image_of_cell sdk w c e hp Hin) as (a' & r' & Ha' & Hr' & ->).
  fold j in Ha', Hr'. rewrite Haj in Ha'. rewrite Hrj in Hr'.
  injection Ha' as <-. injection Hr' as <-.
  destruct (cell_run m vars0 v c Hord)
    as (st & b & acct' & reg' & d & t & p & wt & wp & Hst & _ & _ & Hacct'
        & Hreg' & _ & _ & _ & _ & _ & Ht & Hp & Hat & Hap & _).
  subst tr. rewrite Hst in Hacct, Hreg |- *. cbn [Shell.events] in *.
  rewrite Hacct in Hacct'. injection Hacct' as <-.
  rewrite Hreg in Hreg'. injection Hreg' as <-.
  fold a r in Hap.
  rewrite expand_image_reference in Hap; try done; [|by destruct c].
  exists p. done.
Qed.

Lemma estimator_names_the_pushed_image_witness :
  exists e hp p,
    In (e, hp) (created (journal (run obliging kge_mxnet 0).2))
    /\ Shell.invoked ["docker"; "push"]
         (Shell.events
            (Shell.exec Shell.workstation
               (Shell.script_of Shell.workstation Shell.kge_cell)
               (fun _ => None) 0))
       = [p]
    /\ Shell.argv p = ["docker"; "push"; image_name e].
Proof.
  assert (H : exists x, In x (created (journal (run obliging kge_mxnet 0).2))).
  { run_concrete. eexists. left. reflexivity. }
  destruct H as [[e hp] H].
  unshelve epose proof
          (estimator_names_the_pushed_image obliging 0 Shell.workstation
             (fun _ => None) 0 Shell.kge_cell e hp
             {| Shell.line := 68; Shell.from_output := false;
                Shell.argv := ["aws"; "sts"; "get-caller-identity"; "--query";
                               "Account"; "--output"; "text"];
                Shell.redirected := Shell.Shown;
                Shell.out := "123456789012" +:+ String Shell.linefeed EmptyString;
                Shell.code := 0 |}
             {| Shell.line := 70; Shell.from_output := false;
                Shell.argv := ["aws"; "configure"; "get"; "region"];
                Shell.redirected := Shell.Shown;
                Shell.out := "us-east-2" +:+ String Shell.linefeed EmptyString;
                Shell.code := 0 |} workstation_orderly H _ _ _ _ _ _)
    as (p & Hp & Hap);
    [ vm_compute; reflexivity | vm_compute; reflexivity
    | cbv beta iota delta [Shell.notebook_of]; run_concrete; reflexivity
    | cbv beta iota delta [Shell.notebook_of]; run_concrete; reflexivity
    | vm_compute; reflexivity | vm_compute; reflexivity | ].
  exists e, hp, p. split; [exact H|]. split; [exact Hp | exact Hap].
Defined.
